(** * The folder table of open-webui: [apps/webui/models/folders.py]

    A shallow embedding of [FolderTable], the data-access layer of the
    "folder" entity, and the properties of its operations.

    The Python methods run inside a SQLAlchemy session and read two
    ambient sources, the wall clock ([time.time]) and the UUID generator
    ([uuid.uuid4]).  They are embedded as computations in a state monad
    with exceptions over a [World] that holds the committed rows of the
    table, the readings the clock and the generator will give, and the
    storage errors the database is going to raise. *)

From Stdlib Require Import String Ascii List ZArith Bool Arith Lia.
From ExtLib Require Import Structures.Monad Structures.MonadExc.
Import ListNotations.
Import MonadNotation.
Local Open Scope string_scope.
Local Open Scope list_scope.
Local Open Scope nat_scope.
Local Open Scope monad_scope.

Set Warnings "-register-all,-notation-for-abbreviation".

(** ** Text

    A Python [str] is modelled as a [string] of code points below 256
    (Latin-1).  On that range [str.lower] maps [A-Z] and the accented
    capitals U+00C0..U+00DE, the multiplication sign U+00D7 excepted, to
    the code point 32 above, and leaves every other character alone.
    Beyond that range [str.lower] and [str.isupper] part ways (a
    character can be upper-case and have no lower-case form, or the
    reverse), so the theorems on the lookup by name speak of a name and
    of its lower-cased form, and of nothing else about its characters. *)

Definition is_upper_char (c : ascii) : bool :=
  let n := nat_of_ascii c in
  (((65 <=? n) && (n <=? 90))
   || ((192 <=? n) && (n <=? 222) && negb (n =? 215)))%nat.

Definition lower_char (c : ascii) : ascii :=
  if is_upper_char c then ascii_of_nat (nat_of_ascii c + 32) else c.

(** [name.lower()] *)
Fixpoint lower (s : string) : string :=
  match s with
  | EmptyString => EmptyString
  | String c rest => String (lower_char c) (lower rest)
  end.

(** Some character of [s] is an upper-case letter, of those below 256. *)
Fixpoint has_upper (s : string) : bool :=
  match s with
  | EmptyString => false
  | String c rest => is_upper_char c || has_upper rest
  end.

(** ** Folder DB schema *)

(** JSON values, the content of the [meta] column and of the extra keys
    of [FolderItems]. *)
Inductive json : Type :=
| JNull
| JBool (b : bool)
| JNum (n : Z)
| JStr (s : string)
| JArr (l : list json)
| JObj (l : list (string * json)).

(** [class FolderItems(BaseModel)], with [extra="allow"]. *)
Record FolderItems : Type := mkFolderItems {
  chat_ids : option (list string);
  file_ids : option (list string);
  extra : list (string * json)
}.

(** [class Folder(Base)]: one row of the table ["folder"].  The JSON
    column [items] is kept in its validated form: the only writer of the
    column is [items.model_dump()], which [model_validate] reads back. *)
Record Folder : Type := mkFolder {
  id : string;
  parent_id : option string;
  user_id : string;
  name : string;
  items : option FolderItems;
  meta : option (list (string * json));
  created_at : Z;
  updated_at : Z
}.

(** [class FolderModel(BaseModel)] has the fields of the row, and
    [model_validate] with [from_attributes=True] copies them. *)
Notation FolderModel := Folder (only parsing).
Definition model_validate (folder : Folder) : FolderModel := folder.

(** Attribute assignments on a loaded row. *)
Definition set_parent_id (v : option string) (f : Folder) : Folder :=
  mkFolder (id f) v (user_id f) (name f) (items f) (meta f)
           (created_at f) (updated_at f).
Definition set_name (v : string) (f : Folder) : Folder :=
  mkFolder (id f) (parent_id f) (user_id f) v (items f) (meta f)
           (created_at f) (updated_at f).
Definition set_items (v : option FolderItems) (f : Folder) : Folder :=
  mkFolder (id f) (parent_id f) (user_id f) (name f) v (meta f)
           (created_at f) (updated_at f).
Definition set_updated_at (v : Z) (f : Folder) : Folder :=
  mkFolder (id f) (parent_id f) (user_id f) (name f) (items f) (meta f)
           (created_at f) v.

(** ** The world the methods run in *)

Inductive Exn : Type :=
| OperationalError       (* the database failed the call *)
| IntegrityError         (* primary key violated at commit *)
| InvalidRequestError    (* refresh of a row that is not there *)
| UnmappedInstanceError. (* db.delete(None) *)

Record World : Type := mkWorld {
  rows : list Folder;        (* committed rows, in row order *)
  clock : nat -> Z;          (* n-th reading of int(time.time()) *)
  clock_reads : nat;         (* readings taken so far *)
  uuid_src : nat -> string;  (* n-th value of str(uuid.uuid4()) *)
  uuid_draws : nat;          (* values drawn so far *)
  fault_plan : list bool     (* per storage call to come: does it fail?
                                no entry left means no failure *)
}.

Definition with_rows (r : list Folder) (w : World) : World :=
  mkWorld r (clock w) (clock_reads w) (uuid_src w) (uuid_draws w)
          (fault_plan w).

(** A call returns a value or raises, and the world goes on either way. *)
Inductive Outcome (A : Type) : Type :=
| Returned (a : A)
| Raised (e : Exn).
Arguments Returned {A} a.
Arguments Raised {A} e.

Definition M (A : Type) : Type := World -> Outcome A * World.

#[global] Instance Monad_M : Monad M := {
  ret := fun A (a : A) (w : World) => (Returned a, w);
  bind := fun A B (c : M A) (k : A -> M B) (w : World) =>
    match c w with
    | (Returned a, w') => k a w'
    | (Raised e, w') => (Raised e, w')
    end
}.

(** [raise] and [try: ... except Exception as e: ...] *)
#[global] Instance Exc_M : MonadExc Exn M := {
  raise := fun A (e : Exn) (w : World) => (Raised e, w);
  catch := fun A (c : M A) (h : Exn -> M A) (w : World) =>
    match c w with
    | (Returned a, w') => (Returned a, w')
    | (Raised e, w') => h e w'
    end
}.

(** What a call gave, and the world after it. *)
Definition outcome {A : Type} (c : M A) (w : World) : Outcome A := fst (c w).
Definition after {A : Type} (c : M A) (w : World) : World := snd (c w).

(** [int(time.time())] *)
Definition time_time : M Z := fun w =>
  (Returned (clock w (clock_reads w)),
   mkWorld (rows w) (clock w) (S (clock_reads w)) (uuid_src w)
           (uuid_draws w) (fault_plan w)).

(** [str(uuid.uuid4())] *)
Definition uuid4 : M string := fun w =>
  (Returned (uuid_src w (uuid_draws w)),
   mkWorld (rows w) (clock w) (clock_reads w) (uuid_src w)
           (S (uuid_draws w)) (fault_plan w)).

(** ** The session

    A SQLAlchemy session is a unit of work: rows are read from the table,
    writes are held by the session, and reach the table at [commit], all
    or none.  A session that is left without a commit leaves the table as
    it was.  Every call that talks to the database may fail; which ones do
    is laid down in the [fault_plan] of the world. *)

Definition next_call (w : World) : World :=
  mkWorld (rows w) (clock w) (clock_reads w) (uuid_src w) (uuid_draws w)
          (tl (fault_plan w)).

Definition storage_call : M unit := fun w =>
  if hd false (fault_plan w)
  then (Raised OperationalError, next_call w)
  else (Returned tt, next_call w).

(** Modelled from the spec: [get_db], of
    [open_webui.apps.webui.internal.db], is not among the sources.  The
    spec asks of the storage collaborator "a transactional session provider
    offering scoped acquire/release, basic filtered queries (equality
    predicates on indexed columns), insert, update-in-place, delete, and
    commit", and has each operation acquire "a scoped transactional
    session for its duration" and release it "on all exit paths".
    [with get_db() as db:] is the acquisition, a storage call. *)
Definition get_db : M unit := storage_call.

Definition read_rows : M (list Folder) := fun w => (Returned (rows w), w).
Definition write_rows (r : list Folder) : M unit := fun w =>
  (Returned tt, with_rows r w).

(** [db.query(Folder).filter_by(...).first()] *)
Definition query_first (p : Folder -> bool) : M (option Folder) :=
  storage_call ;;
  r <- read_rows ;;
  ret (find p r).

(** [db.query(Folder).filter_by(...).all()] *)
Definition query_all (p : Folder -> bool) : M (list Folder) :=
  storage_call ;;
  r <- read_rows ;;
  ret (filter p r).

(** What a session holds until it commits. *)
Inductive Write : Type :=
| Insert (f : Folder)                          (* db.add(row) *)
| UpdateCols (pk : string) (g : Folder -> Folder) (* row.attr = value *)
| DeleteRow (pk : string).                     (* db.delete(row) *)

Definition primary_key (f : Folder) : string := id f.
Definition has_id (pk : string) (f : Folder) : bool :=
  String.eqb (primary_key f) pk.

(** One statement on the table; [None] when the primary key is violated.
    The list keeps the rows in the order they were inserted; the queries
    of the methods ask for no order, so the order in which a listing
    comes is the model's and not the code's. *)
Definition apply_write (wr : Write) (r : list Folder) : option (list Folder) :=
  match wr with
  | Insert f =>
      if existsb (has_id (primary_key f)) r then None else Some (r ++ [f])
  | UpdateCols pk g => Some (map (fun f => if has_id pk f then g f else f) r)
  | DeleteRow pk => Some (filter (fun f => negb (has_id pk f)) r)
  end.

Fixpoint apply_writes (ws : list Write) (r : list Folder)
  : option (list Folder) :=
  match ws with
  | [] => Some r
  | wr :: rest =>
      match apply_write wr r with
      | Some r' => apply_writes rest r'
      | None => None
      end
  end.

(** [db.commit()]: the pending writes reach the table, all or none. *)
Definition commit (pending : list Write) : M unit :=
  storage_call ;;
  r <- read_rows ;;
  match apply_writes pending r with
  | Some r' => write_rows r'
  | None => raise IntegrityError
  end.

(** [db.refresh(row)]: the row is read back by primary key. *)
Definition refresh (f : Folder) : M Folder :=
  storage_call ;;
  r <- read_rows ;;
  match find (has_id (primary_key f)) r with
  | Some f' => ret f'
  | None => raise InvalidRequestError
  end.

(** [db.delete(row)]; SQLAlchemy refuses [None]. *)
Definition db_delete (row : option Folder) : M Write :=
  match row with
  | Some f => ret (DeleteRow (primary_key f))
  | None => raise UnmappedInstanceError
  end.

(** ** [filter_by] predicates *)

Definition opt_eqb (a b : option string) : bool :=
  match a, b with
  | Some x, Some y => String.eqb x y
  | None, None => true
  | _, _ => false
  end.

(** [filter_by(id=id, user_id=user_id)] *)
Definition by_id_user (i u : string) (f : Folder) : bool :=
  String.eqb (id f) i && String.eqb (user_id f) u.

(** [filter_by(user_id=user_id)] *)
Definition by_user (u : string) (f : Folder) : bool :=
  String.eqb (user_id f) u.

(** [filter_by(parent_id=parent_id, user_id=user_id)] *)
Definition by_parent_user (p : option string) (u : string) (f : Folder)
  : bool :=
  opt_eqb (parent_id f) p && String.eqb (user_id f) u.

(** [filter_by(parent_id=parent_id, user_id=user_id, name=name)] *)
Definition by_parent_user_name (p : option string) (u n : string)
  (f : Folder) : bool :=
  opt_eqb (parent_id f) p && String.eqb (user_id f) u
  && String.eqb (name f) n.

(** ** [class FolderTable] *)

Definition insert_new_folder (user_id name : string)
  (parent_id : option string) : M (option FolderModel) :=
  get_db ;;
  id <- uuid4 ;;
  created <- time_time ;;
  updated <- time_time ;;
  let folder := mkFolder id parent_id user_id name None None
                         created updated in
  catch
    (commit [Insert folder] ;;
     result <- refresh folder ;;
     (* [if result:] holds of every mapped row *)
     ret (Some (model_validate result)))
    (fun _ => ret None).

Definition get_folder_by_id_and_user_id (id user_id : string)
  : M (option FolderModel) :=
  catch
    (get_db ;;
     folder <- query_first (by_id_user id user_id) ;;
     match folder with
     | None => ret None
     | Some folder => ret (Some (model_validate folder))
     end)
    (fun _ => ret None).

Definition get_folders_by_user_id (user_id : string) : M (list FolderModel) :=
  get_db ;;
  folders <- query_all (by_user user_id) ;;
  ret (map model_validate folders).

Definition get_folder_by_parent_id_and_user_id_and_name
  (parent_id : option string) (user_id name : string)
  : M (option FolderModel) :=
  catch
    (get_db ;;
     folder <- query_first
                 (by_parent_user_name parent_id user_id (lower name)) ;;
     match folder with
     | None => ret None
     | Some folder => ret (Some (model_validate folder))
     end)
    (fun _ => ret None).

Definition get_folders_by_parent_id_and_user_id (parent_id : option string)
  (user_id : string) : M (list FolderModel) :=
  get_db ;;
  folders <- query_all (by_parent_user parent_id user_id) ;;
  ret (map model_validate folders).

Definition update_folder_parent_id_by_id_and_user_id
  (id user_id parent_id : string) : M (option FolderModel) :=
  catch
    (get_db ;;
     folder <- query_first (by_id_user id user_id) ;;
     match folder with
     | None => ret None
     | Some folder =>
         now <- time_time ;;
         let change f := set_updated_at now (set_parent_id (Some parent_id) f) in
         commit [UpdateCols (primary_key folder) change] ;;
         ret (Some (model_validate (change folder)))
     end)
    (fun _ => ret None).

Definition update_folder_name_by_id_and_user_id (id user_id name : string)
  : M (option FolderModel) :=
  catch
    (get_db ;;
     folder <- query_first (by_id_user id user_id) ;;
     match folder with
     | None => ret None
     | Some folder =>
         existing_folder <-
           query_first
             (by_parent_user_name (parent_id folder) user_id name) ;;
         match existing_folder with
         | Some _ => ret None
         | None =>
             now <- time_time ;;
             let change f := set_updated_at now (set_name name f) in
             commit [UpdateCols (primary_key folder) change] ;;
             ret (Some (model_validate (change folder)))
         end
     end)
    (fun _ => ret None).

Definition update_folder_items_by_id_and_user_id (id user_id : string)
  (items : FolderItems) : M (option FolderModel) :=
  catch
    (get_db ;;
     folder <- query_first (by_id_user id user_id) ;;
     match folder with
     | None => ret None
     | Some folder =>
         now <- time_time ;;
         let change f := set_updated_at now (set_items (Some items) f) in
         commit [UpdateCols (primary_key folder) change] ;;
         ret (Some (model_validate (change folder)))
     end)
    (fun _ => ret None).

Definition delete_folder_by_id_and_user_id (id user_id : string) : M bool :=
  catch
    (get_db ;;
     folder <- query_first (by_id_user id user_id) ;;
     gone <- db_delete folder ;;
     commit [gone] ;;
     ret true)
    (fun _ => ret false).

(** ** Conditions on the world *)

(** No storage call to come fails. *)
Definition healthy (w : World) : bool := forallb negb (fault_plan w).

(** The primary key constraint of the table: no two rows share an [id]. *)
Fixpoint primary_key_ok (r : list Folder) : bool :=
  match r with
  | [] => true
  | f :: rest =>
      negb (existsb (has_id (primary_key f)) rest) && primary_key_ok rest
  end.


(** The folders a query would see with [(name, parent_id, user_id)]. *)
Definition carries (n : string) (p : option string) (u : string)
  (f : Folder) : Prop :=
  name f = n /\ parent_id f = p /\ user_id f = u.

(** The row [insert_new_folder] builds: a drawn [id], and two readings of
    the clock, one after the other. *)
Definition new_row (w : World) (u n : string) (p : option string) : Folder :=
  mkFolder (uuid_src w (uuid_draws w)) p u n None None
           (clock w (clock_reads w)) (clock w (S (clock_reads w))).

(** ** What an update may touch *)

(** The table [r'] is the table [r] with the row [f] replaced, where it
    stands, by [f']. *)
Definition replaced_in (r r' : list Folder) (f f' : Folder) : Prop :=
  exists before after,
    r = before ++ f :: after /\ r' = before ++ f' :: after.

(** [f'] is [f] in all fields but [parent_id] and [updated_at]. *)
Definition same_but_parent (f f' : Folder) : Prop :=
  id f' = id f /\ user_id f' = user_id f /\ name f' = name f
  /\ items f' = items f /\ meta f' = meta f
  /\ created_at f' = created_at f.

(** [f'] is [f] in all fields but [name] and [updated_at]. *)
Definition same_but_name (f f' : Folder) : Prop :=
  id f' = id f /\ user_id f' = user_id f /\ parent_id f' = parent_id f
  /\ items f' = items f /\ meta f' = meta f
  /\ created_at f' = created_at f.

(** [f'] is [f] in all fields but [items] and [updated_at]. *)
Definition same_but_items (f f' : Folder) : Prop :=
  id f' = id f /\ user_id f' = user_id f /\ parent_id f' = parent_id f
  /\ name f' = name f /\ meta f' = meta f
  /\ created_at f' = created_at f.

(** ** Conditions on the table *)

(** No two rows of one user under one parent carry the same name. *)
Definition sibling_unique (r : list Folder) : Prop :=
  forall f g,
    In f r -> In g r ->
    user_id f = user_id g -> parent_id f = parent_id g -> name f = name g ->
    f = g.

(** The clock never goes back. *)
Definition steady_clock (w : World) : Prop :=
  forall m k, m <= k -> (clock w m <= clock w k)%Z.

(** No row of [r] was updated before it was created, or after the
    [k]-th reading of the clock [c]. *)
Definition timely_rows (c : nat -> Z) (k : nat) (r : list Folder) : Prop :=
  forall f, In f r ->
    (created_at f <= updated_at f)%Z /\ (updated_at f <= c k)%Z.

(** The same of the table, at the next reading of the clock. *)
Definition timely (w : World) : Prop :=
  timely_rows (clock w) (clock_reads w) (rows w).

(** What no update may change in a row. *)
Definition identity_of (f : Folder) : string * string * Z :=
  (id f, user_id f, created_at f).

(** ** Sample worlds *)

Definition sample_uuid (n : nat) : string :=
  match n with
  | 0 => "3f2b"
  | 1 => "91c4"
  | 2 => "a07e"
  | _ => "ffff"
  end.

(** An empty table, a working database, and a clock that shows second
    [100] at every reading. *)
Definition still_world : World :=
  mkWorld [] (fun _ => 100%Z) 0 sample_uuid 0 [].

(** The same, with a clock that has moved on by a second at every
    reading. *)
Definition ticking_world : World :=
  mkWorld [] (fun n => (100 + Z.of_nat n)%Z) 0 sample_uuid 0 [].


(** The example of the spec: folder A, "Work", and folder B, "Personal",
    both of user "u1" and at root level. *)
Definition work : Folder :=
  mkFolder "3f2b" None "u1" "Work" None None 100 100.
Definition personal : Folder :=
  mkFolder "91c4" None "u1" "Personal" None None 100 100.
Definition home_world : World :=
  mkWorld [work; personal] (fun _ => 100%Z) 4 sample_uuid 2 [].

(** "Work" again, created while the clock passed from second 100 to 101. *)
Definition late_work : Folder :=
  mkFolder "3f2b" None "u1" "Work" None None 100 101.

(** "Work" moved under "Personal", renamed to "Play", and given items,
    each within second 100. *)
Definition work_moved : Folder :=
  mkFolder "3f2b" (Some "91c4") "u1" "Work" None None 100 100.
Definition work_renamed : Folder :=
  mkFolder "3f2b" None "u1" "Play" None None 100 100.
Definition two_chats : FolderItems :=
  mkFolderItems (Some ["c1"; "c2"]) None [].
Definition work_filled : Folder :=
  mkFolder "3f2b" None "u1" "Work" (Some two_chats) None 100 100.

(** "work", in lower case, created after "Work" in the same place, and
    the table that holds both. *)
Definition work_lc : Folder :=
  mkFolder "91c4" None "u1" "work" None None 100 100.
Definition two_cases_world : World :=
  mkWorld [work; work_lc] (fun _ => 100%Z) 4 sample_uuid 2 [].

(** A table of two users: "Work" with a subfolder "Notes" for "u1", and
    "Work" for "u2". *)
Definition notes : Folder :=
  mkFolder "91c4" (Some "3f2b") "u1" "Notes" None None 100 100.
Definition other_work : Folder :=
  mkFolder "a07e" None "u2" "Work" None None 100 100.
Definition shared_world : World :=
  mkWorld [work; notes; other_work] (fun _ => 100%Z) 6 sample_uuid 3 [].

(** A database that commits and then fails the refresh. *)
Definition late_fault_world : World :=
  mkWorld [] (fun _ => 100%Z) 0 sample_uuid 0 [false; false; true].

(** * Properties *)

(** ** Storage calls *)

Lemma rows_next_call (w : World) : rows (next_call w) = rows w.
Proof. reflexivity. Qed.

Lemma healthy_next_call (w : World) :
  healthy w = true -> healthy (next_call w) = true.
Proof.
  unfold healthy, next_call; simpl.
  destruct (fault_plan w) as [|b plan]; simpl; [reflexivity|].
  intros H. apply andb_true_iff in H. tauto.
Qed.

Lemma storage_call_healthy (w : World) :
  healthy w = true -> storage_call w = (Returned tt, next_call w).
Proof.
  unfold healthy, storage_call.
  destruct (fault_plan w) as [|[] plan]; simpl; try reflexivity.
  discriminate.
Qed.

Create HintDb folders.
#[local] Hint Resolve healthy_next_call : folders.

Ltac unfold_op :=
  unfold get_db, query_first, query_all, commit, refresh, db_delete,
    read_rows, write_rows, time_time, uuid4;
  cbn [bind ret raise catch Monad_M Exc_M].

Ltac run :=
  cbn [bind ret raise catch Monad_M Exc_M fst snd rows clock clock_reads
       uuid_src uuid_draws fault_plan next_call with_rows apply_writes
       apply_write model_validate].

(** With a working database every storage call goes through. *)
Ltac calm :=
  repeat (rewrite storage_call_healthy by auto with folders; run).

(** With an arbitrary database every storage call is a case split. *)
Ltac any_fault :=
  unfold storage_call; run;
  repeat match goal with
         | |- context [if hd false ?plan then _ else _] =>
             destruct (hd false plan); run
         end.

(** ** Queries *)

Lemma by_id_user_true (i u : string) (f : Folder) :
  by_id_user i u f = true <-> id f = i /\ user_id f = u.
Proof.
  unfold by_id_user. rewrite andb_true_iff, !String.eqb_eq. tauto.
Qed.

Lemma opt_eqb_true (a b : option string) : opt_eqb a b = true <-> a = b.
Proof.
  destruct a as [x|], b as [y|]; simpl; try (split; congruence).
  rewrite String.eqb_eq. split; congruence.
Qed.

Lemma by_parent_user_name_true (p : option string) (u n : string)
  (f : Folder) :
  by_parent_user_name p u n f = true <-> carries n p u f.
Proof.
  unfold by_parent_user_name, carries.
  rewrite !andb_true_iff, opt_eqb_true, !String.eqb_eq. tauto.
Qed.

Lemma has_id_true (pk : string) (f : Folder) :
  has_id pk f = true <-> id f = pk.
Proof. unfold has_id, primary_key. apply String.eqb_eq. Qed.

Lemma has_id_false (pk : string) (f : Folder) :
  has_id pk f = false <-> id f <> pk.
Proof. unfold has_id, primary_key. apply String.eqb_neq. Qed.

Lemma find_by_id_user (i u : string) (r : list Folder) (f : Folder) :
  find (by_id_user i u) r = Some f -> In f r /\ id f = i /\ user_id f = u.
Proof.
  intros H. apply find_some in H as [Hin Hp].
  apply by_id_user_true in Hp. tauto.
Qed.

Lemma find_exists (p : Folder -> bool) (r : list Folder) (g : Folder) :
  In g r -> p g = true -> exists f, find p r = Some f.
Proof.
  intros Hin Hp. destruct (find p r) as [f|] eqn:E; [eauto|].
  rewrite (find_none p r E g Hin) in Hp. discriminate.
Qed.

(** ** The primary key *)

Lemma existsb_has_id (pk : string) (r : list Folder) :
  existsb (has_id pk) r = true <-> In pk (map id r).
Proof.
  rewrite existsb_exists, in_map_iff.
  split; intros [f [H1 H2]]; exists f.
  - apply has_id_true in H2. tauto.
  - rewrite has_id_true. tauto.
Qed.

Lemma existsb_has_id_false (pk : string) (r : list Folder) :
  existsb (has_id pk) r = false <-> ~ In pk (map id r).
Proof.
  rewrite <- existsb_has_id. destruct (existsb (has_id pk) r); split;
    congruence.
Qed.

Lemma primary_key_ok_NoDup (r : list Folder) :
  primary_key_ok r = true <-> NoDup (map id r).
Proof.
  induction r as [|f rest IH]; simpl.
  - split; [constructor | reflexivity].
  - rewrite andb_true_iff, negb_true_iff, existsb_has_id_false, IH.
    unfold primary_key. split.
    + intros [H1 H2]. now constructor.
    + intros H. inversion H; subst. tauto.
Qed.

(** Two stored rows with one [id] are one row. *)
Lemma primary_key_identifies (r : list Folder) (f g : Folder) :
  primary_key_ok r = true -> In f r -> In g r -> id f = id g -> f = g.
Proof.
  induction r as [|x rest IH]; simpl; [tauto|].
  rewrite andb_true_iff, negb_true_iff, existsb_has_id_false.
  unfold primary_key.
  intros [Hx Hrest] [Hf|Hf] [Hg|Hg] E; subst.
  - reflexivity.
  - exfalso. apply Hx. rewrite E. now apply in_map.
  - exfalso. apply Hx. rewrite <- E. now apply in_map.
  - now apply IH.
Qed.

(** A stored row splits the table, and no other row has its [id]. *)
Lemma primary_key_split (r : list Folder) (f : Folder) :
  primary_key_ok r = true -> In f r ->
  exists before after,
    r = before ++ f :: after
    /\ forall x, In x (before ++ after) -> has_id (primary_key f) x = false.
Proof.
  intros Hok Hin. apply in_split in Hin as [before [after E]].
  exists before, after. split; [exact E|].
  intros x Hx. apply has_id_false. unfold primary_key. intros Exf.
  apply primary_key_ok_NoDup in Hok. subst r.
  rewrite map_app in Hok. simpl in Hok.
  apply NoDup_remove_2 in Hok. apply Hok.
  rewrite <- map_app, <- Exf. now apply in_map.
Qed.

(** An update by primary key rewrites one row in place. *)
Lemma update_in_place (r : list Folder) (f : Folder)
  (g : Folder -> Folder) :
  primary_key_ok r = true -> In f r ->
  exists before after,
    r = before ++ f :: after
    /\ map (fun x => if has_id (primary_key f) x then g x else x) r
       = before ++ g f :: after.
Proof.
  intros Hok Hin.
  destruct (primary_key_split r f Hok Hin) as [before [after [E Hother]]].
  exists before, after. split; [exact E|].
  assert (Hid : forall l, (forall x, In x l ->
                             has_id (primary_key f) x = false) ->
            map (fun x => if has_id (primary_key f) x then g x else x) l = l).
  { induction l as [|x l IH]; simpl; [reflexivity|].
    intros Hl. rewrite (Hl x (or_introl eq_refl)), IH; [reflexivity|].
    intros y Hy. apply Hl. now right. }
  subst r. rewrite map_app. simpl.
  rewrite !Hid.
  - replace (has_id (primary_key f) f) with true; [reflexivity|].
    symmetry. now apply has_id_true.
  - intros x Hx. apply Hother, in_or_app. now right.
  - intros x Hx. apply Hother, in_or_app. now left.
Qed.

(** A row inserted under a fresh [id] is the one found under that [id]. *)
Lemma find_fresh_row (r : list Folder) (f : Folder) (p : Folder -> bool) :
  existsb (has_id (primary_key f)) r = false ->
  (forall x, p x = true -> id x = id f) -> p f = true ->
  find p (r ++ [f]) = Some f.
Proof.
  intros Hfresh Hp Hf. induction r as [|x rest IH]; simpl in *.
  - now rewrite Hf.
  - apply orb_false_iff in Hfresh as [Hx Hrest].
    destruct (p x) eqn:E; [|now apply IH].
    apply Hp in E. apply has_id_false in Hx. now elim Hx.
Qed.

(** ** Reading *)

Lemma get_folder_healthy (w : World) (i u : string) :
  healthy w = true ->
  get_folder_by_id_and_user_id i u w
  = (Returned (find (by_id_user i u) (rows w)), next_call (next_call w)).
Proof.
  intros H. unfold get_folder_by_id_and_user_id. unfold_op. calm.
  destruct (find (by_id_user i u) (rows w)); reflexivity.
Qed.

(** Whatever the database does, a get returns, and returns nothing when
    the table has no row for [(id, user_id)]. *)
Lemma get_folder_absent (w : World) (i u : string) :
  find (by_id_user i u) (rows w) = None ->
  exists w', get_folder_by_id_and_user_id i u w = (Returned None, w').
Proof.
  intros H. unfold get_folder_by_id_and_user_id. unfold_op.
  any_fault; try rewrite H; eauto.
Qed.

Lemma other_user_not_found (r : list Folder) (f : Folder) (u : string) :
  primary_key_ok r = true -> In f r -> u <> user_id f ->
  find (by_id_user (id f) u) r = None.
Proof.
  intros Hok Hin Hu.
  destruct (find (by_id_user (id f) u) r) as [g|] eqn:E; [|reflexivity].
  apply find_by_id_user in E as [Hg [Hid Hus]].
  assert (g = f) by (apply (primary_key_identifies r); assumption).
  subst g. congruence.
Qed.

(** C3. For every stored folder and every [user_id] other than the
    folder's own, [get_folder_by_id_and_user_id] with the folder's [id] and
    that [user_id] returns an absent result, although a row with that
    [id] is in the table. *)
Theorem get_folder_of_other_user (w : World) (f : Folder) (u : string) :
  primary_key_ok (rows w) = true ->
  In f (rows w) ->
  u <> user_id f ->
  existsb (has_id (id f)) (rows w) = true
  /\ exists w', get_folder_by_id_and_user_id (id f) u w = (Returned None, w').
Proof.
  intros Hok Hin Hu. split.
  - apply existsb_has_id. now apply in_map.
  - apply get_folder_absent. now apply other_user_not_found.
Qed.

Lemma get_folder_of_other_user_witness :
  existsb (has_id (id work)) (rows home_world) = true
  /\ exists w',
      get_folder_by_id_and_user_id (id work) "u2" home_world
      = (Returned None, w').
Proof.
  apply (get_folder_of_other_user home_world work "u2").
  - reflexivity.
  - simpl. auto.
  - discriminate.
Defined.

(** ** Deleting *)

Lemma delete_folder_absent (w : World) (i u : string) :
  find (by_id_user i u) (rows w) = None ->
  exists w',
    delete_folder_by_id_and_user_id i u w = (Returned false, w')
    /\ rows w' = rows w.
Proof.
  intros H. unfold delete_folder_by_id_and_user_id. unfold_op.
  any_fault; try rewrite H; run; eauto.
Qed.

(** C6. [delete_folder_by_id_and_user_id] returns [False] and leaves the
    table as it is whenever no row matches [(id, user_id)]; so it does for
    the [id] of a stored folder and a [user_id] other than the folder's
    own, and the folder stays stored. *)
Theorem delete_folder_no_match (w : World) :
  (forall i u,
      find (by_id_user i u) (rows w) = None ->
      exists w',
        delete_folder_by_id_and_user_id i u w = (Returned false, w')
        /\ rows w' = rows w)
  /\ (forall f u,
        primary_key_ok (rows w) = true ->
        In f (rows w) ->
        u <> user_id f ->
        exists w',
          delete_folder_by_id_and_user_id (id f) u w = (Returned false, w')
          /\ rows w' = rows w /\ In f (rows w')).
Proof.
  split.
  - intros i u H. now apply delete_folder_absent.
  - intros f u Hok Hin Hu.
    destruct (delete_folder_absent w (id f) u) as [w' [E R]].
    + now apply other_user_not_found.
    + exists w'. rewrite R. auto.
Qed.

Lemma delete_folder_no_match_witness :
  (exists w',
      delete_folder_by_id_and_user_id "0000" "u1" home_world
      = (Returned false, w')
      /\ rows w' = rows home_world)
  /\ (exists w',
        delete_folder_by_id_and_user_id (id work) "u2" home_world
        = (Returned false, w')
        /\ rows w' = rows home_world /\ In work (rows w')).
Proof.
  split.
  - apply (proj1 (delete_folder_no_match home_world) "0000" "u1").
    reflexivity.
  - apply (proj2 (delete_folder_no_match home_world) work "u2").
    + reflexivity.
    + simpl. auto.
    + discriminate.
Defined.

(** ** Renaming *)

(** A rename that finds the new name taken returns nothing and writes
    nothing, whatever the database does. *)
Lemma rename_taken (w : World) (i u n : string) (f g : Folder) :
  find (by_id_user i u) (rows w) = Some f ->
  In g (rows w) ->
  carries n (parent_id f) u g ->
  exists w',
    update_folder_name_by_id_and_user_id i u n w = (Returned None, w')
    /\ rows w' = rows w.
Proof.
  intros Hf Hg Hc.
  destruct (find_exists (by_parent_user_name (parent_id f) u n) (rows w) g)
    as [e He]; [assumption | now apply by_parent_user_name_true |].
  unfold update_folder_name_by_id_and_user_id. unfold_op.
  any_fault; try rewrite Hf; run; any_fault; try rewrite He; run; eauto.
Qed.

(** C2. For every folder reachable by [(id, user_id)], a rename to a name
    that another folder with the same [parent_id] and [user_id] carries
    returns an absent result and changes nothing: the table is the same,
    and the target is found with the [name] and [updated_at] it had. *)
Theorem rename_conflict (w : World) (i u n : string) (f g : Folder) :
  find (by_id_user i u) (rows w) = Some f ->
  In g (rows w) ->
  id g <> id f ->
  name g = n ->
  parent_id g = parent_id f ->
  user_id g = u ->
  exists w',
    update_folder_name_by_id_and_user_id i u n w = (Returned None, w')
    /\ rows w' = rows w
    /\ exists f',
        find (by_id_user i u) (rows w') = Some f'
        /\ name f' = name f /\ updated_at f' = updated_at f.
Proof.
  intros Hf Hg _ Hn Hp Hu.
  destruct (rename_taken w i u n f g Hf Hg) as [w' [E R]].
  - unfold carries. auto.
  - exists w'. rewrite R. repeat split; try assumption.
    exists f. auto.
Qed.

Lemma rename_conflict_witness :
  exists w',
    update_folder_name_by_id_and_user_id "91c4" "u1" "Work" home_world
    = (Returned None, w')
    /\ rows w' = rows home_world
    /\ exists f',
        find (by_id_user "91c4" "u1") (rows w') = Some f'
        /\ name f' = name personal /\ updated_at f' = updated_at personal.
Proof.
  apply (rename_conflict home_world "91c4" "u1" "Work" personal work).
  - reflexivity.
  - simpl. auto.
  - discriminate.
  - reflexivity.
  - reflexivity.
  - reflexivity.
Defined.

(** C9. For every folder reachable by [(id, user_id)], a rename to the
    name the folder has returns an absent result, the folder itself being
    the one the existence check finds, and leaves the folder as it is,
    [name] and [updated_at] included. *)
Theorem rename_to_own_name (w : World) (i u : string) (f : Folder) :
  find (by_id_user i u) (rows w) = Some f ->
  (exists e,
      find (by_parent_user_name (parent_id f) u (name f)) (rows w) = Some e)
  /\ exists w',
      update_folder_name_by_id_and_user_id i u (name f) w
      = (Returned None, w')
      /\ rows w' = rows w
      /\ find (by_id_user i u) (rows w') = Some f.
Proof.
  intros Hf. destruct (find_by_id_user i u (rows w) f Hf) as [Hin [_ Hu]].
  assert (Hc : carries (name f) (parent_id f) u f) by (unfold carries; auto).
  split.
  - apply (find_exists _ _ f Hin). now apply by_parent_user_name_true.
  - destruct (rename_taken w i u (name f) f f Hf Hin Hc) as [w' [E R]].
    exists w'. rewrite R. auto.
Qed.

Lemma rename_to_own_name_witness :
  (exists e,
      find (by_parent_user_name (parent_id work) "u1" (name work))
           (rows home_world) = Some e)
  /\ exists w',
      update_folder_name_by_id_and_user_id "3f2b" "u1" (name work) home_world
      = (Returned None, w')
      /\ rows w' = rows home_world
      /\ find (by_id_user "3f2b" "u1") (rows w') = Some work.
Proof.
  apply (rename_to_own_name home_world "3f2b" "u1" work). reflexivity.
Defined.

(** ** Creating *)

Lemma find_new_row (r : list Folder) (f : Folder) :
  existsb (has_id (primary_key f)) r = false ->
  find (has_id (primary_key f)) (r ++ [f]) = Some f.
Proof.
  intros H. apply find_fresh_row; [assumption| |].
  - intros x Hx. now apply has_id_true in Hx.
  - now apply has_id_true.
Qed.

Lemma insert_returned (w w' : World) (u n : string) (p : option string)
  (f : FolderModel) :
  insert_new_folder u n p w = (Returned (Some f), w') ->
  f = new_row w u n p
  /\ existsb (has_id (id f)) (rows w) = false
  /\ rows w' = rows w ++ [f]
  /\ fault_plan w' = tl (tl (tl (fault_plan w))).
Proof.
  unfold insert_new_folder. unfold_op.
  any_fault; fold (new_row w u n p); try discriminate.
  destruct (existsb (has_id (primary_key (new_row w u n p))) (rows w)) eqn:Hfresh;
    run; try discriminate.
  any_fault; try discriminate.
  rewrite (find_new_row _ _ Hfresh). run.
  intros E. injection E as Ef Ew. subst f w'. unfold model_validate.
  repeat split; solve [assumption | reflexivity].
Qed.

Lemma insert_healthy (w : World) (u n : string) (p : option string) :
  healthy w = true ->
  existsb (has_id (uuid_src w (uuid_draws w))) (rows w) = false ->
  exists w',
    insert_new_folder u n p w = (Returned (Some (new_row w u n p)), w')
    /\ rows w' = rows w ++ [new_row w u n p]
    /\ healthy w' = true.
Proof.
  intros H Hfresh. unfold insert_new_folder. unfold_op.
  rewrite storage_call_healthy by assumption. run.
  fold (new_row w u n p).
  pose proof (healthy_next_call _ H) as H1.
  pose proof (healthy_next_call _ H1) as H2.
  pose proof (healthy_next_call _ H2) as H3.
  rewrite storage_call_healthy by exact H1. run.
  change (uuid_src w (uuid_draws w))
    with (primary_key (new_row w u n p)) in Hfresh.
  rewrite Hfresh. run.
  rewrite storage_call_healthy by exact H2. run.
  rewrite (find_new_row (rows w) (new_row w u n p)) by exact Hfresh. run.
  eexists. split; [reflexivity|]. split; [reflexivity|]. exact H3.
Qed.

(** C1, as the code has it.  With a database that answers and a drawn
    [id] that is not in use, [insert_new_folder] returns a folder.  When it
    has returned a folder and the database then answers the get,
    [get_folder_by_id_and_user_id] with the returned [id] and the same
    [user_id] returns a folder with the [name], [parent_id] and [user_id]
    given at creation.  Its [created_at] and [updated_at] are two
    successive readings of the clock, so they are equal exactly when the
    clock showed the same second at both readings. *)
Theorem insert_then_get (w : World) (u n : string) (p : option string) :
  (healthy w = true ->
   existsb (has_id (uuid_src w (uuid_draws w))) (rows w) = false ->
   exists f w1,
     insert_new_folder u n p w = (Returned (Some f), w1)
     /\ healthy w1 = true)
  /\ (forall f w1,
        insert_new_folder u n p w = (Returned (Some f), w1) ->
        healthy w1 = true ->
        exists w2,
          get_folder_by_id_and_user_id (id f) u w1 = (Returned (Some f), w2)
          /\ name f = n /\ parent_id f = p /\ user_id f = u
          /\ created_at f = clock w (clock_reads w)
          /\ updated_at f = clock w (S (clock_reads w))
          /\ (created_at f = updated_at f
              <-> clock w (clock_reads w) = clock w (S (clock_reads w)))).
Proof.
  split.
  - intros Hw Hfresh.
    destruct (insert_healthy w u n p Hw Hfresh) as [w1 [E [_ Hw1]]]. eauto.
  - intros f w1 Hins Hw1.
    destruct (insert_returned w w1 u n p f Hins) as [Ef [Hfresh [Hrows _]]].
    rewrite (get_folder_healthy w1 (id f) u Hw1), Hrows.
    rewrite (find_fresh_row (rows w) f (by_id_user (id f) u)).
    + eexists. split; [reflexivity|]. subst f. simpl. tauto.
    + exact Hfresh.
    + intros x Hx. now apply by_id_user_true in Hx.
    + apply by_id_user_true. subst f. auto.
Qed.

Lemma insert_then_get_witness :
  (exists f w1,
      insert_new_folder "u1" "Work" None still_world
      = (Returned (Some f), w1)
      /\ healthy w1 = true)
  /\ exists w2,
      get_folder_by_id_and_user_id (id work) "u1"
        (after (insert_new_folder "u1" "Work" None) still_world)
      = (Returned (Some work), w2)
      /\ name work = "Work" /\ parent_id work = None /\ user_id work = "u1"
      /\ created_at work = clock still_world (clock_reads still_world)
      /\ updated_at work = clock still_world (S (clock_reads still_world))
      /\ (created_at work = updated_at work
          <-> clock still_world (clock_reads still_world)
              = clock still_world (S (clock_reads still_world))).
Proof.
  split.
  - apply (proj1 (insert_then_get still_world "u1" "Work" None));
      reflexivity.
  - apply (proj2 (insert_then_get still_world "u1" "Work" None) work
             (after (insert_new_folder "u1" "Work" None) still_world));
      reflexivity.
Defined.

(** C1 as the claim has it fails: with a clock that passes to the next
    second between the two readings of [insert_new_folder], the folder got
    back has a [created_at] other than its [updated_at]. *)
Lemma insert_then_get_timestamps_differ :
  outcome (insert_new_folder "u1" "Work" None) ticking_world
  = Returned (Some late_work)
  /\ outcome (get_folder_by_id_and_user_id (id late_work) "u1")
             (after (insert_new_folder "u1" "Work" None) ticking_world)
     = Returned (Some late_work)
  /\ created_at late_work <> updated_at late_work.
Proof.
  split; [reflexivity|]. split; [reflexivity|]. discriminate.
Qed.



(** ** Updating *)

Lemma find_map_update (p : Folder -> bool) (pk : string)
  (g : Folder -> Folder) (r : list Folder) (f : Folder) :
  (forall x, p (g x) = p x) ->
  find p r = Some f -> id f = pk ->
  find p (map (fun x => if has_id pk x then g x else x) r) = Some (g f).
Proof.
  intros Hp. induction r as [|x rest IH]; simpl; [discriminate|].
  intros Hf Hid.
  assert (E : p (if has_id pk x then g x else x) = p x)
    by (destruct (has_id pk x); auto).
  rewrite E. destruct (p x).
  - injection Hf as ->. replace (has_id pk f) with true; [reflexivity|].
    symmetry. now apply has_id_true.
  - now apply IH.
Qed.

Ltac update_returned Hf :=
  unfold_op; any_fault; try discriminate;
  match goal with
  | |- context [find ?p ?r] => destruct (find p r) as [f|] eqn:Hf
  end; run; try discriminate.

Lemma set_parent_returned (w w' : World) (i u p : string) (f' : Folder) :
  update_folder_parent_id_by_id_and_user_id i u p w
  = (Returned (Some f'), w') ->
  exists f,
    find (by_id_user i u) (rows w) = Some f
    /\ f' = set_updated_at (clock w (clock_reads w))
              (set_parent_id (Some p) f)
    /\ rows w'
       = map (fun x => if has_id (primary_key f) x
                       then set_updated_at (clock w (clock_reads w))
                              (set_parent_id (Some p) x)
                       else x) (rows w).
Proof.
  unfold update_folder_parent_id_by_id_and_user_id.
  update_returned Hf. any_fault; try discriminate.
  intros E. injection E as <- <-. exists f. auto.
Qed.

Lemma rename_returned (w w' : World) (i u n : string) (f' : Folder) :
  update_folder_name_by_id_and_user_id i u n w
  = (Returned (Some f'), w') ->
  exists f,
    find (by_id_user i u) (rows w) = Some f
    /\ find (by_parent_user_name (parent_id f) u n) (rows w) = None
    /\ f' = set_updated_at (clock w (clock_reads w)) (set_name n f)
    /\ rows w'
       = map (fun x => if has_id (primary_key f) x
                       then set_updated_at (clock w (clock_reads w))
                              (set_name n x)
                       else x) (rows w).
Proof.
  unfold update_folder_name_by_id_and_user_id.
  update_returned Hf. any_fault; try discriminate.
  destruct (find (by_parent_user_name (parent_id f) u n) (rows w)) eqn:He;
    run; try discriminate.
  any_fault; try discriminate.
  intros E. injection E as <- <-. exists f. auto.
Qed.

Lemma replace_items_returned (w w' : World) (i u : string)
  (it : FolderItems) (f' : Folder) :
  update_folder_items_by_id_and_user_id i u it w
  = (Returned (Some f'), w') ->
  exists f,
    find (by_id_user i u) (rows w) = Some f
    /\ f' = set_updated_at (clock w (clock_reads w))
              (set_items (Some it) f)
    /\ rows w'
       = map (fun x => if has_id (primary_key f) x
                       then set_updated_at (clock w (clock_reads w))
                              (set_items (Some it) x)
                       else x) (rows w).
Proof.
  unfold update_folder_items_by_id_and_user_id.
  update_returned Hf. any_fault; try discriminate.
  intros E. injection E as <- <-. exists f. auto.
Qed.

(** C10. An update that returns a folder has rewritten one row, in place,
    and in it the targeted field and [updated_at] only:
    [update_folder_parent_id_by_id_and_user_id] sets [parent_id],
    [update_folder_name_by_id_and_user_id] sets [name],
    [update_folder_items_by_id_and_user_id] sets [items]; [id], [user_id],
    [meta], [created_at] and the fields not targeted are as before, and
    so is every other row of the table. *)
Theorem update_frame (w : World) (i u : string) :
  primary_key_ok (rows w) = true ->
  (forall p f' w',
      update_folder_parent_id_by_id_and_user_id i u p w
      = (Returned (Some f'), w') ->
      exists f,
        find (by_id_user i u) (rows w) = Some f
        /\ parent_id f' = Some p /\ same_but_parent f f'
        /\ replaced_in (rows w) (rows w') f f')
  /\ (forall n f' w',
        update_folder_name_by_id_and_user_id i u n w
        = (Returned (Some f'), w') ->
        exists f,
          find (by_id_user i u) (rows w) = Some f
          /\ name f' = n /\ same_but_name f f'
          /\ replaced_in (rows w) (rows w') f f')
  /\ (forall it f' w',
        update_folder_items_by_id_and_user_id i u it w
        = (Returned (Some f'), w') ->
        exists f,
          find (by_id_user i u) (rows w) = Some f
          /\ items f' = Some it /\ same_but_items f f'
          /\ replaced_in (rows w) (rows w') f f').
Proof.
  intros Hok. split; [|split].
  - intros p f' w' H.
    destruct (set_parent_returned _ _ _ _ _ _ H) as [f [Hf [-> R]]].
    exists f. destruct (find_by_id_user _ _ _ _ Hf) as [Hin _].
    split; [exact Hf|]. split; [reflexivity|].
    split; [unfold same_but_parent; simpl; tauto|].
    rewrite R.
    exact (update_in_place (rows w) f
             (fun x => set_updated_at _ (set_parent_id (Some p) x)) Hok Hin).
  - intros n f' w' H.
    destruct (rename_returned _ _ _ _ _ _ H) as [f [Hf [_ [-> R]]]].
    exists f. destruct (find_by_id_user _ _ _ _ Hf) as [Hin _].
    split; [exact Hf|]. split; [reflexivity|].
    split; [unfold same_but_name; simpl; tauto|].
    rewrite R.
    exact (update_in_place (rows w) f
             (fun x => set_updated_at _ (set_name n x)) Hok Hin).
  - intros it f' w' H.
    destruct (replace_items_returned _ _ _ _ _ _ H) as [f [Hf [-> R]]].
    exists f. destruct (find_by_id_user _ _ _ _ Hf) as [Hin _].
    split; [exact Hf|]. split; [reflexivity|].
    split; [unfold same_but_items; simpl; tauto|].
    rewrite R.
    exact (update_in_place (rows w) f
             (fun x => set_updated_at _ (set_items (Some it) x)) Hok Hin).
Qed.

Lemma update_frame_witness :
  (exists f,
      find (by_id_user "3f2b" "u1") (rows home_world) = Some f
      /\ parent_id work_moved = Some "91c4" /\ same_but_parent f work_moved
      /\ replaced_in (rows home_world)
           (rows (after (update_folder_parent_id_by_id_and_user_id
                           "3f2b" "u1" "91c4") home_world))
           f work_moved)
  /\ (exists f,
        find (by_id_user "3f2b" "u1") (rows home_world) = Some f
        /\ name work_renamed = "Play" /\ same_but_name f work_renamed
        /\ replaced_in (rows home_world)
             (rows (after (update_folder_name_by_id_and_user_id
                             "3f2b" "u1" "Play") home_world))
             f work_renamed)
  /\ (exists f,
        find (by_id_user "3f2b" "u1") (rows home_world) = Some f
        /\ items work_filled = Some two_chats /\ same_but_items f work_filled
        /\ replaced_in (rows home_world)
             (rows (after (update_folder_items_by_id_and_user_id
                             "3f2b" "u1" two_chats) home_world))
             f work_filled).
Proof.
  destruct (update_frame home_world "3f2b" "u1" eq_refl) as [H1 [H2 H3]].
  split; [|split].
  - apply (H1 "91c4" work_moved). reflexivity.
  - apply (H2 "Play" work_renamed). reflexivity.
  - apply (H3 two_chats work_filled). reflexivity.
Defined.

Lemma set_parent_healthy (w : World) (i u p : string) (f : Folder) :
  healthy w = true ->
  find (by_id_user i u) (rows w) = Some f ->
  exists w',
    update_folder_parent_id_by_id_and_user_id i u p w
    = (Returned (Some (set_updated_at (clock w (clock_reads w))
                         (set_parent_id (Some p) f))), w').
Proof.
  intros H Hf. unfold update_folder_parent_id_by_id_and_user_id. unfold_op.
  pose proof (healthy_next_call _ H) as H1.
  pose proof (healthy_next_call _ H1) as H2.
  rewrite storage_call_healthy by exact H. run.
  rewrite storage_call_healthy by exact H1. run.
  rewrite Hf. run.
  rewrite storage_call_healthy by exact H2. run.
  eexists. reflexivity.
Qed.

(** C5, as the code has it.  For a folder reachable by [(id, user_id)]
    and a database that answers, [update_folder_parent_id_by_id_and_user_id]
    returns the folder, now stored, with [parent_id] set to the one
    supplied and [updated_at] set to the reading of the clock, in whole
    seconds, at the call.  So [updated_at] is greater than before exactly
    when that reading is later than the previous [updated_at]. *)
Theorem set_parent_updates (w : World) (i u p : string) (f : Folder) :
  healthy w = true ->
  find (by_id_user i u) (rows w) = Some f ->
  exists f' w',
    update_folder_parent_id_by_id_and_user_id i u p w
    = (Returned (Some f'), w')
    /\ find (by_id_user i u) (rows w') = Some f'
    /\ parent_id f' = Some p
    /\ updated_at f' = clock w (clock_reads w)
    /\ ((updated_at f < updated_at f')%Z
        <-> (updated_at f < clock w (clock_reads w))%Z).
Proof.
  intros H Hf. destruct (set_parent_healthy w i u p f H Hf) as [w' E].
  eexists. exists w'. split; [exact E|].
  destruct (set_parent_returned _ _ _ _ _ _ E) as [f0 [Hf0 [_ R]]].
  assert (f0 = f) by congruence. subst f0.
  split.
  - rewrite R.
    apply (find_map_update (by_id_user i u) (primary_key f)
             (fun x => set_updated_at (clock w (clock_reads w))
                         (set_parent_id (Some p) x)));
      [reflexivity | exact Hf | reflexivity].
  - simpl. tauto.
Qed.

Lemma set_parent_updates_witness :
  exists f' w',
    update_folder_parent_id_by_id_and_user_id "3f2b" "u1" "91c4" home_world
    = (Returned (Some f'), w')
    /\ find (by_id_user "3f2b" "u1") (rows w') = Some f'
    /\ parent_id f' = Some "91c4"
    /\ updated_at f' = clock home_world (clock_reads home_world)
    /\ ((updated_at work < updated_at f')%Z
        <-> (updated_at work < clock home_world (clock_reads home_world))%Z).
Proof.
  apply (set_parent_updates home_world "3f2b" "u1" "91c4" work).
  - reflexivity.
  - reflexivity.
Defined.

(** C5 as the claim has it fails: a folder moved within the second of its
    last update keeps its [updated_at]. *)
Lemma set_parent_within_the_second :
  find (by_id_user "3f2b" "u1") (rows home_world) = Some work
  /\ outcome (update_folder_parent_id_by_id_and_user_id "3f2b" "u1" "91c4")
             home_world
     = Returned (Some work_moved)
  /\ parent_id work_moved = Some "91c4"
  /\ ~ (updated_at work < updated_at work_moved)%Z.
Proof.
  repeat split. simpl. lia.
Qed.

(** ** Looking up by name *)

Lemma find_folder_healthy (w : World) (p : option string) (u n : string) :
  healthy w = true ->
  get_folder_by_parent_id_and_user_id_and_name p u n w
  = (Returned (find (by_parent_user_name p u (lower n)) (rows w)),
     next_call (next_call w)).
Proof.
  intros H. unfold get_folder_by_parent_id_and_user_id_and_name.
  unfold_op. calm.
  destruct (find (by_parent_user_name p u (lower n)) (rows w)); reflexivity.
Qed.

(** C4, as the code has it.  With a database that answers,
    [get_folder_by_parent_id_and_user_id_and_name] returns a folder exactly
    when a stored folder has the given [parent_id] and [user_id] and, as
    its stored name, the lower-cased form of the name supplied, and the
    folder returned is such a one.  So a stored folder whose name is not
    its own lower-cased form is never what a lookup by that very name
    returns: the lookup returns nothing, unless a folder with the same
    [parent_id] and [user_id] is stored under the lower-cased name. *)
Theorem lookup_by_lowered_name (w : World) (p : option string)
  (u n : string) :
  healthy w = true ->
  exists r w',
    get_folder_by_parent_id_and_user_id_and_name p u n w = (Returned r, w')
    /\ ((exists g, r = Some g)
        <-> exists f, In f (rows w) /\ carries (lower n) p u f)
    /\ (forall g, r = Some g -> In g (rows w) /\ carries (lower n) p u g)
    /\ (forall f,
          In f (rows w) -> carries n p u f -> lower n <> n ->
          r <> Some f
          /\ (r = None
              <-> ~ exists g, In g (rows w) /\ carries (lower n) p u g)).
Proof.
  intros H. rewrite (find_folder_healthy w p u n H).
  do 2 eexists. split; [reflexivity|].
  set (r := find (by_parent_user_name p u (lower n)) (rows w)).
  assert (Hsome : forall g, r = Some g ->
                    In g (rows w) /\ carries (lower n) p u g).
  { intros g E. apply find_some in E as [Hin Hp].
    now apply by_parent_user_name_true in Hp. }
  assert (Hiff : (exists g, r = Some g)
                 <-> exists f, In f (rows w) /\ carries (lower n) p u f).
  { split.
    - intros [g E]. exists g. auto.
    - intros [f [Hin Hc]]. apply (find_exists _ _ f Hin).
      now apply by_parent_user_name_true. }
  split; [exact Hiff|]. split; [exact Hsome|].
  intros f Hin [Hn _] Hup. split.
  - intros E. destruct (Hsome f E) as [_ [Hl _]].
    apply Hup. congruence.
  - rewrite <- Hiff. destruct r as [g|]; split; try congruence.
    + intros Hno. elim Hno. eauto.
    + intros _ [g E]. discriminate.
Qed.

Lemma lookup_by_lowered_name_witness :
  exists r w',
    get_folder_by_parent_id_and_user_id_and_name None "u1" "Work" home_world
    = (Returned r, w')
    /\ ((exists g, r = Some g)
        <-> exists f, In f (rows home_world)
                      /\ carries (lower "Work") None "u1" f)
    /\ (forall g, r = Some g ->
                  In g (rows home_world)
                  /\ carries (lower "Work") None "u1" g)
    /\ (forall f,
          In f (rows home_world) -> carries "Work" None "u1" f ->
          lower "Work" <> "Work" ->
          r <> Some f
          /\ (r = None
              <-> ~ exists g, In g (rows home_world)
                              /\ carries (lower "Work") None "u1" g)).
Proof.
  apply (lookup_by_lowered_name home_world None "u1" "Work"). reflexivity.
Defined.

(** C4 as the claim has it fails: "Work" is stored, its name has an
    upper-case letter, and the lookup by "Work" in its place returns a
    folder, the one stored there as "work". *)
Lemma lookup_finds_lower_case_sibling :
  In work (rows two_cases_world)
  /\ has_upper (name work) = true
  /\ outcome (get_folder_by_parent_id_and_user_id_and_name
                (parent_id work) (user_id work) (name work))
             two_cases_world
     = Returned (Some work_lc)
  /\ outcome (get_folder_by_parent_id_and_user_id_and_name
                (parent_id work) (user_id work) (name work))
             two_cases_world
     <> Returned None.
Proof.
  repeat split; [simpl; auto | discriminate].
Qed.

(** ** Storage errors *)















(** ** The primary key is kept

    The constraint the theorems above ask of the table holds in every
    world the methods can reach from one where it holds. *)

Lemma insert_keeps_key (r : list Folder) (f : Folder) :
  primary_key_ok r = true ->
  existsb (has_id (primary_key f)) r = false ->
  primary_key_ok (r ++ [f]) = true.
Proof.
  rewrite !primary_key_ok_NoDup, existsb_has_id_false, map_app.
  intros Hr Hf. apply NoDup_app; [assumption | repeat constructor; auto |].
  intros a Ha [<-|[]]. now apply Hf.
Qed.

Lemma update_keeps_key (r : list Folder) (pk : string)
  (g : Folder -> Folder) :
  (forall x, id (g x) = id x) ->
  primary_key_ok r = true ->
  primary_key_ok (map (fun x => if has_id pk x then g x else x) r) = true.
Proof.
  intros Hg. rewrite !primary_key_ok_NoDup, map_map.
  replace (map (fun x => id (if has_id pk x then g x else x)) r)
    with (map id r); [auto|].
  apply map_ext. intros x. destruct (has_id pk x); auto.
Qed.

Lemma delete_keeps_key (r : list Folder) (q : Folder -> bool) :
  primary_key_ok r = true -> primary_key_ok (filter q r) = true.
Proof.
  rewrite !primary_key_ok_NoDup.
  induction r as [|x rest IH]; simpl; [auto|].
  intros H. apply NoDup_cons_iff in H as [Hx Hrest].
  destruct (q x); simpl; [|auto].
  constructor; [|auto].
  intros Hin. apply Hx. apply in_map_iff in Hin as [y [E Hy]].
  apply filter_In in Hy as [Hy _]. rewrite <- E. now apply in_map.
Qed.

Ltac keep_key Hok :=
  unfold after; unfold_op; any_fault; try exact Hok;
  repeat match goal with
         | |- context [match find ?p ?r with _ => _ end] =>
             destruct (find p r); run; any_fault; try exact Hok
         | |- context [if existsb ?p ?r then _ else _] =>
             destruct (existsb p r) eqn:?; run; any_fault; try exact Hok
         end.

(** X19. Every writing method keeps the primary key: in a table where no
    two rows share an [id], none do after [insert_new_folder], any of the
    three updates or [delete_folder_by_id_and_user_id], whatever the
    arguments, the drawn [id] and the database. *)
Theorem primary_key_kept (w : World) :
  primary_key_ok (rows w) = true ->
  (forall u n p,
      primary_key_ok (rows (after (insert_new_folder u n p) w)) = true)
  /\ (forall i u p,
        primary_key_ok
          (rows (after (update_folder_parent_id_by_id_and_user_id i u p) w))
        = true)
  /\ (forall i u n,
        primary_key_ok
          (rows (after (update_folder_name_by_id_and_user_id i u n) w))
        = true)
  /\ (forall i u it,
        primary_key_ok
          (rows (after (update_folder_items_by_id_and_user_id i u it) w))
        = true)
  /\ (forall i u,
        primary_key_ok
          (rows (after (delete_folder_by_id_and_user_id i u) w)) = true).
Proof.
  intros Hok. repeat split; intros.
  - unfold insert_new_folder. keep_key Hok; now apply insert_keeps_key.
  - unfold update_folder_parent_id_by_id_and_user_id. keep_key Hok;
      apply update_keeps_key; auto.
  - unfold update_folder_name_by_id_and_user_id. keep_key Hok;
      apply update_keeps_key; auto.
  - unfold update_folder_items_by_id_and_user_id. keep_key Hok;
      apply update_keeps_key; auto.
  - unfold delete_folder_by_id_and_user_id. keep_key Hok;
      now apply delete_keeps_key.
Qed.

Lemma primary_key_kept_witness :
  primary_key_ok
    (rows (after (insert_new_folder "u1" "Play" None) home_world)) = true.
Proof.
  apply (primary_key_kept home_world). reflexivity.
Defined.

(** ** The example of the spec

    Create A ("Work") and B ("Personal") for "u1" at root level; renaming
    B to "Work" is refused, renaming B to "Play" goes through, and the
    root level of "u1" then lists A as "Work" and B as "Play". *)

Example home_world_reached :
  after (insert_new_folder "u1" "Personal" None)
        (after (insert_new_folder "u1" "Work" None) still_world)
  = home_world.
Proof. reflexivity. Qed.

Example two_cases_world_reached :
  after (insert_new_folder "u1" "work" None)
        (after (insert_new_folder "u1" "Work" None) still_world)
  = two_cases_world.
Proof. reflexivity. Qed.

Example rename_personal_to_work :
  outcome (update_folder_name_by_id_and_user_id "91c4" "u1" "Work") home_world
  = Returned None.
Proof. reflexivity. Qed.

Example rename_personal_to_play :
  outcome
    (update_folder_name_by_id_and_user_id "91c4" "u1" "Play" ;;
     get_folders_by_parent_id_and_user_id None "u1")
    home_world
  = Returned [work; mkFolder "91c4" None "u1" "Play" None None 100 100].
Proof. reflexivity. Qed.

(** * Further properties of the methods *)

(** ** The table after a call, whatever the database does *)

Ltac table_after :=
  unfold after; unfold_op; any_fault; auto;
  repeat match goal with
         | |- context [match find ?p ?r with _ => _ end] =>
             let E := fresh "E" in
             destruct (find p r) eqn:E; run; any_fault; auto
         | |- context [if existsb ?p ?r then _ else _] =>
             let E := fresh "E" in
             destruct (existsb p r) eqn:E; run; any_fault; auto
         end.

Lemma rows_after_insert (w : World) (u n : string) (p : option string) :
  rows (after (insert_new_folder u n p) w) = rows w
  \/ (existsb (has_id (uuid_src w (uuid_draws w))) (rows w) = false
      /\ rows (after (insert_new_folder u n p) w)
         = rows w ++ [new_row w u n p]).
Proof.
  unfold insert_new_folder. table_after.
Qed.

Lemma rows_after_set_parent (w : World) (i u p : string) :
  rows (after (update_folder_parent_id_by_id_and_user_id i u p) w) = rows w
  \/ exists f t,
      find (by_id_user i u) (rows w) = Some f
      /\ rows (after (update_folder_parent_id_by_id_and_user_id i u p) w)
         = map (fun x => if has_id (primary_key f) x
                         then set_updated_at t (set_parent_id (Some p) x)
                         else x) (rows w).
Proof.
  unfold update_folder_parent_id_by_id_and_user_id. table_after; eauto.
Qed.

Lemma rows_after_rename (w : World) (i u n : string) :
  rows (after (update_folder_name_by_id_and_user_id i u n) w) = rows w
  \/ exists f t,
      find (by_id_user i u) (rows w) = Some f
      /\ find (by_parent_user_name (parent_id f) u n) (rows w) = None
      /\ rows (after (update_folder_name_by_id_and_user_id i u n) w)
         = map (fun x => if has_id (primary_key f) x
                         then set_updated_at t (set_name n x)
                         else x) (rows w).
Proof.
  unfold update_folder_name_by_id_and_user_id. table_after; eauto 10.
Qed.

Lemma rows_after_replace_items (w : World) (i u : string)
  (it : FolderItems) :
  rows (after (update_folder_items_by_id_and_user_id i u it) w) = rows w
  \/ exists f t,
      find (by_id_user i u) (rows w) = Some f
      /\ rows (after (update_folder_items_by_id_and_user_id i u it) w)
         = map (fun x => if has_id (primary_key f) x
                         then set_updated_at t (set_items (Some it) x)
                         else x) (rows w).
Proof.
  unfold update_folder_items_by_id_and_user_id. table_after; eauto.
Qed.

Lemma rows_after_delete (w : World) (i u : string) :
  rows (after (delete_folder_by_id_and_user_id i u) w) = rows w
  \/ exists f,
      find (by_id_user i u) (rows w) = Some f
      /\ rows (after (delete_folder_by_id_and_user_id i u) w)
         = filter (fun x => negb (has_id (primary_key f) x)) (rows w).
Proof.
  unfold delete_folder_by_id_and_user_id. table_after; eauto.
Qed.

(** ** Listing *)

Lemma by_user_true (u : string) (f : Folder) :
  by_user u f = true <-> user_id f = u.
Proof. unfold by_user. apply String.eqb_eq. Qed.

Lemma by_parent_user_true (p : option string) (u : string) (f : Folder) :
  by_parent_user p u f = true <-> parent_id f = p /\ user_id f = u.
Proof.
  unfold by_parent_user. now rewrite andb_true_iff, opt_eqb_true, String.eqb_eq.
Qed.

Lemma list_by_user_healthy (w : World) (u : string) :
  healthy w = true ->
  get_folders_by_user_id u w
  = (Returned (filter (by_user u) (rows w)), next_call (next_call w)).
Proof.
  intros H. unfold get_folders_by_user_id. unfold_op. calm.
  now rewrite map_id.
Qed.

Lemma list_by_parent_healthy (w : World) (p : option string) (u : string) :
  healthy w = true ->
  get_folders_by_parent_id_and_user_id p u w
  = (Returned (filter (by_parent_user p u) (rows w)),
     next_call (next_call w)).
Proof.
  intros H. unfold get_folders_by_parent_id_and_user_id. unfold_op. calm.
  now rewrite map_id.
Qed.

(** X1. With a database that answers, [get_folders_by_user_id] returns
    the stored folders of that user and no other folder, each as stored,
    and leaves the table as it is. *)
Theorem list_by_user_exact (w : World) (u : string) :
  healthy w = true ->
  exists l w',
    get_folders_by_user_id u w = (Returned l, w')
    /\ rows w' = rows w
    /\ forall f, In f l <-> In f (rows w) /\ user_id f = u.
Proof.
  intros H. rewrite (list_by_user_healthy w u H).
  do 2 eexists. split; [reflexivity|]. split; [reflexivity|].
  intros f. now rewrite filter_In, by_user_true.
Qed.

Lemma list_by_user_exact_witness :
  exists l w',
    get_folders_by_user_id "u1" shared_world = (Returned l, w')
    /\ rows w' = rows shared_world
    /\ forall f, In f l <-> In f (rows shared_world) /\ user_id f = "u1".
Proof.
  apply (list_by_user_exact shared_world "u1"). reflexivity.
Defined.

(** X2. With a database that answers,
    [get_folders_by_parent_id_and_user_id] returns the stored folders of
    that user with that [parent_id] (the root-level ones for [None]) and
    no other folder; each of them is also among the folders that
    [get_folders_by_user_id] returns for the user. *)
Theorem list_by_parent_exact (w : World) (p : option string) (u : string) :
  healthy w = true ->
  exists l w',
    get_folders_by_parent_id_and_user_id p u w = (Returned l, w')
    /\ rows w' = rows w
    /\ (forall f,
          In f l <-> In f (rows w) /\ parent_id f = p /\ user_id f = u)
    /\ exists all w'',
        get_folders_by_user_id u w = (Returned all, w'')
        /\ incl l all.
Proof.
  intros H. rewrite (list_by_parent_healthy w p u H).
  rewrite (list_by_user_healthy w u H).
  do 2 eexists. split; [reflexivity|]. split; [reflexivity|]. split.
  - intros f. now rewrite filter_In, by_parent_user_true.
  - do 2 eexists. split; [reflexivity|].
    intros f. rewrite !filter_In, by_parent_user_true, by_user_true. tauto.
Qed.

Lemma list_by_parent_exact_witness :
  exists l w',
    get_folders_by_parent_id_and_user_id None "u1" shared_world
    = (Returned l, w')
    /\ rows w' = rows shared_world
    /\ (forall f,
          In f l
          <-> In f (rows shared_world)
              /\ parent_id f = None /\ user_id f = "u1")
    /\ exists all w'',
        get_folders_by_user_id "u1" shared_world = (Returned all, w'')
        /\ incl l all.
Proof.
  apply (list_by_parent_exact shared_world None "u1"). reflexivity.
Defined.

(** ** Getting by id *)

(** X3. With a database that answers and the primary key on [id],
    [get_folder_by_id_and_user_id] returns a folder exactly when that
    folder is stored with that [id] and that [user_id], and leaves the
    table as it is. *)
Theorem get_folder_exact (w : World) (i u : string) :
  healthy w = true ->
  primary_key_ok (rows w) = true ->
  exists r w',
    get_folder_by_id_and_user_id i u w = (Returned r, w')
    /\ rows w' = rows w
    /\ forall f, r = Some f <-> In f (rows w) /\ id f = i /\ user_id f = u.
Proof.
  intros H Hok. rewrite (get_folder_healthy w i u H).
  do 2 eexists. split; [reflexivity|]. split; [reflexivity|].
  intros f. split.
  - apply find_by_id_user.
  - intros [Hin [Hi Hu]].
    destruct (find_exists (by_id_user i u) (rows w) f Hin) as [g Hg];
      [now apply by_id_user_true|].
    rewrite Hg. f_equal.
    apply find_by_id_user in Hg as [Hgin [Hgi _]].
    apply (primary_key_identifies (rows w)); congruence.
Qed.

Lemma get_folder_exact_witness :
  exists r w',
    get_folder_by_id_and_user_id "91c4" "u1" shared_world = (Returned r, w')
    /\ rows w' = rows shared_world
    /\ forall f,
        r = Some f
        <-> In f (rows shared_world) /\ id f = "91c4" /\ user_id f = "u1".
Proof.
  apply (get_folder_exact shared_world "91c4" "u1"); reflexivity.
Defined.

(** ** What the readers leave alone *)

(** X4. The four reading methods never write: whatever the database
    does, and whether they return or raise, the table after the call is
    the table before it. *)
Theorem reads_leave_table (w : World) :
  (forall i u, rows (after (get_folder_by_id_and_user_id i u) w) = rows w)
  /\ (forall u, rows (after (get_folders_by_user_id u) w) = rows w)
  /\ (forall p u n,
        rows (after (get_folder_by_parent_id_and_user_id_and_name p u n) w)
        = rows w)
  /\ (forall p u,
        rows (after (get_folders_by_parent_id_and_user_id p u) w) = rows w).
Proof.
  repeat split; intros.
  - unfold get_folder_by_id_and_user_id. table_after.
  - unfold get_folders_by_user_id. table_after.
  - unfold get_folder_by_parent_id_and_user_id_and_name. table_after.
  - unfold get_folders_by_parent_id_and_user_id. table_after.
Qed.

(** ** Updates without a target *)

Lemma update_absent (w : World) (i u : string) :
  find (by_id_user i u) (rows w) = None ->
  (forall p,
      exists w',
        update_folder_parent_id_by_id_and_user_id i u p w
        = (Returned None, w')
        /\ rows w' = rows w)
  /\ (forall n,
        exists w',
          update_folder_name_by_id_and_user_id i u n w = (Returned None, w')
          /\ rows w' = rows w)
  /\ (forall it,
        exists w',
          update_folder_items_by_id_and_user_id i u it w
          = (Returned None, w')
          /\ rows w' = rows w).
Proof.
  intros H. repeat split; intros.
  - unfold update_folder_parent_id_by_id_and_user_id. unfold_op.
    any_fault; try rewrite H; run; eauto.
  - unfold update_folder_name_by_id_and_user_id. unfold_op.
    any_fault; try rewrite H; run; eauto.
  - unfold update_folder_items_by_id_and_user_id. unfold_op.
    any_fault; try rewrite H; run; eauto.
Qed.

(** X5. The three updates do nothing to a folder of another user: for a
    stored folder and a [user_id] other than its own, each of them
    returns an absent result and leaves the table as it is, whatever the
    database does. *)
Theorem update_of_other_user (w : World) (f : Folder) (u : string) :
  primary_key_ok (rows w) = true ->
  In f (rows w) ->
  u <> user_id f ->
  (forall p,
      exists w',
        update_folder_parent_id_by_id_and_user_id (id f) u p w
        = (Returned None, w')
        /\ rows w' = rows w)
  /\ (forall n,
        exists w',
          update_folder_name_by_id_and_user_id (id f) u n w
          = (Returned None, w')
          /\ rows w' = rows w)
  /\ (forall it,
        exists w',
          update_folder_items_by_id_and_user_id (id f) u it w
          = (Returned None, w')
          /\ rows w' = rows w).
Proof.
  intros Hok Hin Hu. apply update_absent. now apply other_user_not_found.
Qed.

Lemma update_of_other_user_witness :
  (forall p,
      exists w',
        update_folder_parent_id_by_id_and_user_id (id other_work) "u1" p
          shared_world
        = (Returned None, w')
        /\ rows w' = rows shared_world)
  /\ (forall n,
        exists w',
          update_folder_name_by_id_and_user_id (id other_work) "u1" n
            shared_world
          = (Returned None, w')
          /\ rows w' = rows shared_world)
  /\ (forall it,
        exists w',
          update_folder_items_by_id_and_user_id (id other_work) "u1" it
            shared_world
          = (Returned None, w')
          /\ rows w' = rows shared_world).
Proof.
  apply (update_of_other_user shared_world other_work "u1").
  - reflexivity.
  - simpl. auto.
  - discriminate.
Defined.

(** ** What no update touches *)

Lemma identity_kept (r : list Folder) (pk : string) (g : Folder -> Folder) :
  (forall x, identity_of (g x) = identity_of x) ->
  map identity_of (map (fun x => if has_id pk x then g x else x) r)
  = map identity_of r.
Proof.
  intros Hg. rewrite map_map. apply map_ext.
  intros x. destruct (has_id pk x); auto.
Qed.

(** X6. No update adds, removes or reorders rows, and none changes the
    [id], the [user_id] or the [created_at] of any row: row by row, these
    three are after the call what they were before, whatever the database
    does and whatever the call returns. *)
Theorem updates_keep_identity (w : World) (i u : string) :
  (forall p,
      map identity_of
          (rows (after (update_folder_parent_id_by_id_and_user_id i u p) w))
      = map identity_of (rows w))
  /\ (forall n,
        map identity_of
            (rows (after (update_folder_name_by_id_and_user_id i u n) w))
        = map identity_of (rows w))
  /\ (forall it,
        map identity_of
            (rows (after (update_folder_items_by_id_and_user_id i u it) w))
        = map identity_of (rows w)).
Proof.
  repeat split; intros.
  - destruct (rows_after_set_parent w i u p) as [E|[f [t [_ E]]]];
      rewrite E; [reflexivity | now apply identity_kept].
  - destruct (rows_after_rename w i u n) as [E|[f [t [_ [_ E]]]]];
      rewrite E; [reflexivity | now apply identity_kept].
  - destruct (rows_after_replace_items w i u it) as [E|[f [t [_ E]]]];
      rewrite E; [reflexivity | now apply identity_kept].
Qed.

(** ** The folders of other users *)

Lemma filter_update_other (r : list Folder) (f : Folder)
  (g : Folder -> Folder) (v : string) :
  primary_key_ok r = true -> In f r -> user_id f <> v ->
  (forall x, user_id (g x) = user_id x) ->
  filter (by_user v)
         (map (fun x => if has_id (primary_key f) x then g x else x) r)
  = filter (by_user v) r.
Proof.
  intros Hok Hin Hv Hg.
  destruct (update_in_place r f g Hok Hin) as [before [after0 [E ->]]].
  rewrite E, !filter_app. simpl.
  replace (by_user v (g f)) with false.
  - replace (by_user v f) with false; [reflexivity|].
    symmetry. apply not_true_iff_false. now rewrite by_user_true.
  - symmetry. apply not_true_iff_false. now rewrite by_user_true, Hg.
Qed.

Lemma filter_delete_other (r : list Folder) (f : Folder) (v : string) :
  primary_key_ok r = true -> In f r -> user_id f <> v ->
  filter (by_user v) (filter (fun x => negb (has_id (primary_key f) x)) r)
  = filter (by_user v) r.
Proof.
  intros Hok Hin Hv.
  induction r as [|x rest IH]; simpl; [reflexivity|].
  assert (Hrest : primary_key_ok rest = true).
  { simpl in Hok. apply andb_true_iff in Hok. tauto. }
  destruct (has_id (primary_key f) x) eqn:Ex; simpl.
  - apply has_id_true in Ex.
    assert (x = f).
    { apply (primary_key_identifies (x :: rest)); simpl; auto. }
    subst x.
    replace (by_user v f) with false
      by (symmetry; apply not_true_iff_false; now rewrite by_user_true).
    destruct Hin as [_|Hin]; [|now apply IH].
    clear IH. simpl in Hok. apply andb_true_iff in Hok as [Hf _].
    apply negb_true_iff in Hf. f_equal.
    induction rest as [|y rest IH]; simpl in *; [reflexivity|].
    apply orb_false_iff in Hf as [Hy Hf]. rewrite Hy. simpl.
    apply andb_true_iff in Hrest as [_ Hrest].
    now rewrite (IH Hf Hrest).
  - destruct Hin as [->|Hin].
    + apply has_id_false in Ex. now elim Ex.
    + now rewrite (IH Hrest Hin).
Qed.

(** X7. A writing call made for one user leaves the folders of every
    other user as they are: with the primary key on [id], the rows of a
    user [v] are the same, and in the same order, after
    [insert_new_folder], each of the three updates and
    [delete_folder_by_id_and_user_id] called with a [user_id] other than
    [v], whatever the database does. *)
Theorem other_users_untouched (w : World) (u v : string) :
  primary_key_ok (rows w) = true ->
  u <> v ->
  (forall n p,
      filter (by_user v) (rows (after (insert_new_folder u n p) w))
      = filter (by_user v) (rows w))
  /\ (forall i p,
        filter (by_user v)
               (rows (after (update_folder_parent_id_by_id_and_user_id i u p)
                            w))
        = filter (by_user v) (rows w))
  /\ (forall i n,
        filter (by_user v)
               (rows (after (update_folder_name_by_id_and_user_id i u n) w))
        = filter (by_user v) (rows w))
  /\ (forall i it,
        filter (by_user v)
               (rows (after (update_folder_items_by_id_and_user_id i u it) w))
        = filter (by_user v) (rows w))
  /\ (forall i,
        filter (by_user v)
               (rows (after (delete_folder_by_id_and_user_id i u) w))
        = filter (by_user v) (rows w)).
Proof.
  intros Hok Huv. repeat split; intros.
  - destruct (rows_after_insert w u n p) as [E|[_ E]]; rewrite E;
      [reflexivity|].
    rewrite filter_app. simpl.
    replace (by_user v (new_row w u n p)) with false;
      [now rewrite app_nil_r|].
    symmetry. apply not_true_iff_false. now rewrite by_user_true.
  - destruct (rows_after_set_parent w i u p) as [E|[f [t [Hf E]]]];
      rewrite E; [reflexivity|].
    apply find_by_id_user in Hf as [Hin [_ Hu]].
    apply filter_update_other; auto. congruence.
  - destruct (rows_after_rename w i u n) as [E|[f [t [Hf [_ E]]]]];
      rewrite E; [reflexivity|].
    apply find_by_id_user in Hf as [Hin [_ Hu]].
    apply filter_update_other; auto. congruence.
  - destruct (rows_after_replace_items w i u it) as [E|[f [t [Hf E]]]];
      rewrite E; [reflexivity|].
    apply find_by_id_user in Hf as [Hin [_ Hu]].
    apply filter_update_other; auto. congruence.
  - destruct (rows_after_delete w i u) as [E|[f [Hf E]]];
      rewrite E; [reflexivity|].
    apply find_by_id_user in Hf as [Hin [_ Hu]].
    apply filter_delete_other; auto. congruence.
Qed.

Lemma other_users_untouched_witness :
  filter (by_user "u2")
         (rows (after (delete_folder_by_id_and_user_id "3f2b" "u1")
                      shared_world))
  = filter (by_user "u2") (rows shared_world).
Proof.
  apply (other_users_untouched shared_world "u1" "u2").
  - reflexivity.
  - discriminate.
Defined.

(** ** Deleting a folder that is there *)

Lemma healthy_with_rows (r : list Folder) (w : World) :
  healthy (with_rows r w) = healthy w.
Proof. reflexivity. Qed.

Lemma delete_healthy (w : World) (i u : string) (f : Folder) :
  healthy w = true ->
  find (by_id_user i u) (rows w) = Some f ->
  delete_folder_by_id_and_user_id i u w
  = (Returned true,
     with_rows (filter (fun x => negb (has_id (primary_key f) x)) (rows w))
               (next_call (next_call (next_call w)))).
Proof.
  intros H Hf. unfold delete_folder_by_id_and_user_id. unfold_op.
  pose proof (healthy_next_call _ H) as H1.
  pose proof (healthy_next_call _ H1) as H2.
  rewrite storage_call_healthy by exact H. run.
  rewrite storage_call_healthy by exact H1. run.
  rewrite Hf. run.
  rewrite storage_call_healthy by exact H2. run.
  reflexivity.
Qed.

Lemma delete_returned (w w' : World) (i u : string) :
  delete_folder_by_id_and_user_id i u w = (Returned true, w') ->
  exists f,
    find (by_id_user i u) (rows w) = Some f
    /\ rows w' = filter (fun x => negb (has_id (primary_key f) x)) (rows w).
Proof.
  unfold delete_folder_by_id_and_user_id. unfold_op.
  any_fault; try discriminate.
  destruct (find (by_id_user i u) (rows w)) as [f|]; run; try discriminate.
  any_fault; try discriminate.
  intros E. injection E as <-. eauto.
Qed.

Lemma filter_out_row (r : list Folder) (f : Folder) :
  primary_key_ok r = true -> In f r ->
  exists before after,
    r = before ++ f :: after
    /\ filter (fun x => negb (has_id (primary_key f) x)) r = before ++ after.
Proof.
  intros Hok Hin.
  destruct (primary_key_split r f Hok Hin) as [before [after0 [E Hother]]].
  exists before, after0. split; [exact E|].
  assert (Hid : forall l, (forall x, In x l ->
                             has_id (primary_key f) x = false) ->
            filter (fun x => negb (has_id (primary_key f) x)) l = l).
  { induction l as [|x l IH]; simpl; [reflexivity|].
    intros Hl. rewrite (Hl x (or_introl eq_refl)). simpl.
    rewrite IH; [reflexivity|]. intros y Hy. apply Hl. now right. }
  rewrite E, filter_app. simpl.
  replace (has_id (primary_key f) f) with true
    by (symmetry; now apply has_id_true).
  simpl. rewrite !Hid; [reflexivity| |].
  - intros x Hx. apply Hother, in_or_app. now right.
  - intros x Hx. apply Hother, in_or_app. now left.
Qed.

(** X8. With a database that answers and the primary key on [id],
    [delete_folder_by_id_and_user_id] on a folder reachable by
    [(id, user_id)] returns [True] and takes that one row out of the
    table, the rows before and after it staying as they are; a
    [get_folder_by_id_and_user_id] with the same [(id, user_id)] then
    returns an absent result. *)
Theorem delete_then_get (w : World) (i u : string) (f : Folder) :
  healthy w = true ->
  primary_key_ok (rows w) = true ->
  find (by_id_user i u) (rows w) = Some f ->
  exists w',
    delete_folder_by_id_and_user_id i u w = (Returned true, w')
    /\ (exists before after,
          rows w = before ++ f :: after /\ rows w' = before ++ after)
    /\ exists w'',
        get_folder_by_id_and_user_id i u w' = (Returned None, w'').
Proof.
  intros H Hok Hf. rewrite (delete_healthy w i u f H Hf).
  destruct (find_by_id_user i u (rows w) f Hf) as [Hin [Hi Hu]].
  destruct (filter_out_row (rows w) f Hok Hin) as [before [after0 [E F]]].
  eexists. split; [reflexivity|]. split.
  - exists before, after0. split; [exact E|]. exact F.
  - apply get_folder_absent. cbn [rows with_rows next_call].
    match goal with
    | |- find ?q ?r = None => destruct (find q r) as [x|] eqn:Ex
    end; [|reflexivity].
    apply find_some in Ex as [Hx Hq].
    apply filter_In in Hx as [_ Hx]. apply negb_true_iff in Hx.
    apply has_id_false in Hx. unfold primary_key in Hx.
    apply by_id_user_true in Hq as [Hq _]. congruence.
Qed.

Lemma delete_then_get_witness :
  exists w',
    delete_folder_by_id_and_user_id "91c4" "u1" shared_world
    = (Returned true, w')
    /\ (exists before after,
          rows shared_world = before ++ notes :: after
          /\ rows w' = before ++ after)
    /\ exists w'',
        get_folder_by_id_and_user_id "91c4" "u1" w' = (Returned None, w'').
Proof.
  apply (delete_then_get shared_world "91c4" "u1" notes); reflexivity.
Defined.

(** X9. A delete does not cascade.  When
    [delete_folder_by_id_and_user_id] returns [True], every stored folder
    with another [id] is still stored, unchanged; so the subfolders of
    the deleted folder stay, with a [parent_id] that is the [id] of no
    stored folder any more. *)
Theorem delete_does_not_cascade (w w' : World) (i u : string) :
  delete_folder_by_id_and_user_id i u w = (Returned true, w') ->
  (forall g, In g (rows w) -> id g <> i -> In g (rows w'))
  /\ (forall g,
        In g (rows w) -> parent_id g = Some i -> id g <> i ->
        In g (rows w') /\ existsb (has_id i) (rows w') = false).
Proof.
  intros E. destruct (delete_returned w w' i u E) as [f [Hf R]].
  destruct (find_by_id_user i u (rows w) f Hf) as [_ [Hi _]].
  assert (Hkept : forall g, In g (rows w) -> id g <> i -> In g (rows w')).
  { intros g Hg Hne. rewrite R. apply filter_In. split; [assumption|].
    apply negb_true_iff, has_id_false. unfold primary_key. congruence. }
  split; [exact Hkept|].
  intros g Hg _ Hne. split; [now apply Hkept|].
  apply existsb_has_id_false. intros Hin.
  apply in_map_iff in Hin as [x [Ex Hx]]. rewrite R in Hx.
  apply filter_In in Hx as [_ Hx]. apply negb_true_iff in Hx.
  apply has_id_false in Hx. unfold primary_key in Hx. congruence.
Qed.

Lemma delete_does_not_cascade_witness :
  (forall g,
      In g (rows shared_world) -> id g <> "3f2b" ->
      In g (rows (after (delete_folder_by_id_and_user_id "3f2b" "u1")
                        shared_world)))
  /\ (forall g,
        In g (rows shared_world) -> parent_id g = Some "3f2b" ->
        id g <> "3f2b" ->
        In g (rows (after (delete_folder_by_id_and_user_id "3f2b" "u1")
                          shared_world))
        /\ existsb (has_id "3f2b")
             (rows (after (delete_folder_by_id_and_user_id "3f2b" "u1")
                          shared_world))
           = false).
Proof.
  apply (delete_does_not_cascade shared_world
           (after (delete_folder_by_id_and_user_id "3f2b" "u1") shared_world)
           "3f2b" "u1").
  reflexivity.
Defined.

(** ** Renaming to a free name *)

Lemma rename_healthy (w : World) (i u n : string) (f : Folder) :
  healthy w = true ->
  find (by_id_user i u) (rows w) = Some f ->
  find (by_parent_user_name (parent_id f) u n) (rows w) = None ->
  update_folder_name_by_id_and_user_id i u n w
  = (Returned (Some (set_updated_at (clock w (clock_reads w))
                       (set_name n f))),
     with_rows
       (map (fun x => if has_id (primary_key f) x
                      then set_updated_at (clock w (clock_reads w))
                             (set_name n x)
                      else x) (rows w))
       (next_call
          (mkWorld (rows w) (clock w) (S (clock_reads w)) (uuid_src w)
                   (uuid_draws w)
                   (fault_plan (next_call (next_call (next_call w))))))).
Proof.
  intros H Hf He. unfold update_folder_name_by_id_and_user_id. unfold_op.
  pose proof (healthy_next_call _ H) as H1.
  pose proof (healthy_next_call _ H1) as H2.
  pose proof (healthy_next_call _ H2) as H3.
  rewrite storage_call_healthy by exact H. run.
  rewrite storage_call_healthy by exact H1. run.
  rewrite Hf. run.
  rewrite storage_call_healthy by exact H2. run.
  rewrite He. run.
  rewrite storage_call_healthy by exact H3. run.
  reflexivity.
Qed.

(** X10. With a database that answers, a rename of a folder reachable
    by [(id, user_id)] to a name that no stored folder of that user
    carries under the folder's parent goes through, whoever carries the
    name elsewhere: the call returns the folder with the new [name] and
    with [updated_at] set to the reading of the clock, and that is the
    folder then stored under [(id, user_id)]. *)
Theorem rename_to_free_name (w : World) (i u n : string) (f : Folder) :
  healthy w = true ->
  find (by_id_user i u) (rows w) = Some f ->
  (forall g, In g (rows w) -> ~ carries n (parent_id f) u g) ->
  exists f' w',
    update_folder_name_by_id_and_user_id i u n w = (Returned (Some f'), w')
    /\ name f' = n
    /\ updated_at f' = clock w (clock_reads w)
    /\ find (by_id_user i u) (rows w') = Some f'.
Proof.
  intros H Hf Hfree.
  assert (He : find (by_parent_user_name (parent_id f) u n) (rows w) = None).
  { destruct (find (by_parent_user_name (parent_id f) u n) (rows w))
      as [g|] eqn:E; [|reflexivity].
    apply find_some in E as [Hg Hc]. apply by_parent_user_name_true in Hc.
    now elim (Hfree g Hg). }
  rewrite (rename_healthy w i u n f H Hf He).
  do 2 eexists. split; [reflexivity|]. split; [reflexivity|].
  split; [reflexivity|]. cbn [rows with_rows].
  apply (find_map_update (by_id_user i u) (primary_key f)
           (fun x => set_updated_at (clock w (clock_reads w))
                       (set_name n x)));
    [reflexivity | exact Hf | reflexivity].
Qed.

Lemma rename_to_free_name_witness :
  exists f' w',
    update_folder_name_by_id_and_user_id "91c4" "u1" "Work" shared_world
    = (Returned (Some f'), w')
    /\ name f' = "Work"
    /\ updated_at f' = clock shared_world (clock_reads shared_world)
    /\ find (by_id_user "91c4" "u1") (rows w') = Some f'.
Proof.
  apply (rename_to_free_name shared_world "91c4" "u1" "Work" notes).
  - reflexivity.
  - reflexivity.
  - unfold carries. simpl.
    intros g [<-|[<-|[<-|[]]]] [Hn [Hp Hu]]; simpl in *; congruence.
Defined.

(** X11. A rename keeps sibling names apart: in a table with the primary
    key on [id] where no two folders of one user under one parent carry
    the same name, that still holds after
    [update_folder_name_by_id_and_user_id], whatever its arguments,
    whatever the database does. *)
Theorem rename_keeps_sibling_unique (w : World) (i u n : string) :
  primary_key_ok (rows w) = true ->
  sibling_unique (rows w) ->
  sibling_unique (rows (after (update_folder_name_by_id_and_user_id i u n) w)).
Proof.
  intros Hok Huniq.
  destruct (rows_after_rename w i u n) as [E|[f [t [Hf [He E]]]]];
    rewrite E; [exact Huniq|].
  destruct (find_by_id_user i u (rows w) f Hf) as [Hin [_ Hu]].
  set (g := fun x => set_updated_at t (set_name n x)).
  destruct (primary_key_split (rows w) f Hok Hin)
    as [before [after0 [Er Hother]]].
  destruct (update_in_place (rows w) f g Hok Hin)
    as [before' [after' [Er' Em]]].
  assert (Hold : forall x,
             In x (map (fun x => if has_id (primary_key f) x
                                 then g x else x) (rows w)) ->
             x = g f \/ (In x (rows w) /\ id x <> id f)).
  { intros x Hx. apply in_map_iff in Hx as [y [Ey Hy]].
    destruct (has_id (primary_key f) y) eqn:Ehas.
    - left. apply has_id_true in Ehas. unfold primary_key in Ehas.
      assert (y = f) by (apply (primary_key_identifies (rows w)); auto).
      congruence.
    - right. subst x. split; [assumption|]. now apply has_id_false in Ehas. }
  assert (Hfree : forall y, In y (rows w) ->
             user_id y = u -> parent_id y = parent_id f -> name y <> n).
  { intros y Hy Hyu Hyp Hyn.
    assert (Hc : by_parent_user_name (parent_id f) u n y = true)
      by (apply by_parent_user_name_true; unfold carries; auto).
    pose proof (find_none _ _ He y Hy) as Hno. congruence. }
  intros x y Hx Hy Euser Eparent Ename.
  apply Hold in Hx. apply Hold in Hy.
  destruct Hx as [->|[Hx Hxid]], Hy as [->|[Hy Hyid]].
  - reflexivity.
  - exfalso. apply (Hfree y Hy); simpl in *; congruence.
  - exfalso. apply (Hfree x Hx); simpl in *; congruence.
  - now apply Huniq.
Qed.

Lemma rename_keeps_sibling_unique_witness :
  sibling_unique
    (rows (after (update_folder_name_by_id_and_user_id "91c4" "u1" "Docs")
                 shared_world)).
Proof.
  apply (rename_keeps_sibling_unique shared_world "91c4" "u1" "Docs").
  - reflexivity.
  - intros f g [<-|[<-|[<-|[]]]] [<-|[<-|[<-|[]]]] E1 E2 E3;
      simpl in *; congruence.
Defined.

(** ** Moving next to a namesake *)

(** X12. [update_folder_parent_id_by_id_and_user_id] looks at no name.
    With a database that answers, a folder reachable by [(id, user_id)]
    is moved under the new parent also when another folder of the user
    there carries its name; the table then holds two folders of one
    user, under one parent, with one name. *)
Theorem move_ignores_sibling_names (w : World) (i u p : string)
  (f g : Folder) :
  healthy w = true ->
  find (by_id_user i u) (rows w) = Some f ->
  In g (rows w) ->
  id g <> id f ->
  carries (name f) (Some p) u g ->
  exists f' w',
    update_folder_parent_id_by_id_and_user_id i u p w
    = (Returned (Some f'), w')
    /\ In f' (rows w') /\ In g (rows w')
    /\ id f' <> id g
    /\ carries (name f) (Some p) u f'
    /\ ~ sibling_unique (rows w').
Proof.
  intros H Hf Hg Hne [Hgn [Hgp Hgu]].
  destruct (set_parent_healthy w i u p f H Hf) as [w' E].
  destruct (set_parent_returned _ _ _ _ _ _ E) as [f0 [Hf0 [_ R]]].
  assert (f0 = f) by congruence. subst f0.
  destruct (find_by_id_user i u (rows w) f Hf) as [Hin [_ Hu]].
  set (h := fun x => set_updated_at (clock w (clock_reads w))
                       (set_parent_id (Some p) x)) in *.
  assert (Hf' : In (h f) (rows w')).
  { rewrite R. apply in_map_iff. exists f. split; [|assumption].
    replace (has_id (primary_key f) f) with true; [reflexivity|].
    symmetry. now apply has_id_true. }
  assert (Hg' : In g (rows w')).
  { rewrite R. apply in_map_iff. exists g. split; [|assumption].
    replace (has_id (primary_key f) g) with false; [reflexivity|].
    symmetry. now apply has_id_false. }
  exists (h f), w'. split; [exact E|].
  split; [exact Hf'|]. split; [exact Hg'|].
  split; [simpl; congruence|].
  split; [unfold carries; simpl; auto|].
  intros Huniq.
  assert (h f = g) by (apply Huniq; simpl; congruence).
  apply Hne. subst g. reflexivity.
Qed.

Lemma move_ignores_sibling_names_witness :
  exists f' w',
    update_folder_parent_id_by_id_and_user_id "91c4" "u1" "3f2b"
      (after (update_folder_name_by_id_and_user_id "91c4" "u1" "Notes")
             (after (insert_new_folder "u1" "Notes" (Some "3f2b"))
                    home_world))
    = (Returned (Some f'), w')
    /\ In f' (rows w')
    /\ In (mkFolder "a07e" (Some "3f2b") "u1" "Notes" None None 100 100)
          (rows w')
    /\ id f' <> "a07e"
    /\ carries "Notes" (Some "3f2b") "u1" f'
    /\ ~ sibling_unique (rows w').
Proof.
  apply (move_ignores_sibling_names
           (after (update_folder_name_by_id_and_user_id "91c4" "u1" "Notes")
                  (after (insert_new_folder "u1" "Notes" (Some "3f2b"))
                         home_world))
           "91c4" "u1" "3f2b"
           (mkFolder "91c4" None "u1" "Notes" None None 100 100)
           (mkFolder "a07e" (Some "3f2b") "u1" "Notes" None None 100 100)).
  - reflexivity.
  - reflexivity.
  - simpl. auto.
  - discriminate.
  - unfold carries. simpl. auto.
Defined.

(** ** Inserts that fail *)

(** X13. When the drawn [id] is the [id] of a stored row, the commit of
    [insert_new_folder] violates the primary key: once the session is
    open the call returns an absent result and the table stays as it is. *)
Theorem insert_id_collision (w : World) (u n : string) (p : option string) :
  hd false (fault_plan w) = false ->
  existsb (has_id (uuid_src w (uuid_draws w))) (rows w) = true ->
  exists w',
    insert_new_folder u n p w = (Returned None, w')
    /\ rows w' = rows w.
Proof.
  intros Hopen Hdup. unfold insert_new_folder. unfold_op.
  unfold storage_call at 1. rewrite Hopen. run.
  change (uuid_src w (uuid_draws w))
    with (primary_key (new_row w u n p)) in Hdup.
  fold (new_row w u n p). any_fault; eauto.
  rewrite Hdup. run. eauto.
Qed.

Lemma insert_id_collision_witness :
  exists w',
    insert_new_folder "u1" "Again" None
      (mkWorld [work; personal] (fun _ => 100%Z) 4 sample_uuid 1 [])
    = (Returned None, w')
    /\ rows w'
       = rows (mkWorld [work; personal] (fun _ => 100%Z) 4 sample_uuid 1 []).
Proof.
  apply (insert_id_collision
           (mkWorld [work; personal] (fun _ => 100%Z) 4 sample_uuid 1 [])
           "u1" "Again" None); reflexivity.
Defined.

(** X14. When the commit of [insert_new_folder] goes through and the
    refresh after it fails, the call returns an absent result although
    the new row is in the table. *)
Theorem insert_lost_refresh (w : World) (u n : string) (p : option string) :
  firstn 3 (fault_plan w) = [false; false; true] ->
  existsb (has_id (uuid_src w (uuid_draws w))) (rows w) = false ->
  exists w',
    insert_new_folder u n p w = (Returned None, w')
    /\ rows w' = rows w ++ [new_row w u n p].
Proof.
  intros Hplan Hfresh. unfold insert_new_folder, new_row. unfold_op.
  destruct w as [r c cr us ud plan]. simpl in Hplan, Hfresh.
  destruct plan as [|b1 [|b2 [|b3 plan]]]; try discriminate.
  injection Hplan as -> -> ->.
  unfold storage_call. simpl. rewrite Hfresh. simpl. eauto.
Qed.

Lemma insert_lost_refresh_witness :
  exists w',
    insert_new_folder "u1" "Work" None late_fault_world = (Returned None, w')
    /\ rows w'
       = rows late_fault_world ++ [new_row late_fault_world "u1" "Work" None].
Proof.
  apply (insert_lost_refresh late_fault_world "u1" "Work" None); reflexivity.
Defined.

(** ** Looking up a lower-case name *)

Lemma lookup_stored (w : World) (f : Folder) (n : string) :
  healthy w = true ->
  In f (rows w) ->
  lower n = name f ->
  exists g w',
    get_folder_by_parent_id_and_user_id_and_name
      (parent_id f) (user_id f) n w
    = (Returned (Some g), w')
    /\ In g (rows w)
    /\ carries (name f) (parent_id f) (user_id f) g
    /\ (sibling_unique (rows w) -> g = f).
Proof.
  intros H Hin Hn.
  rewrite (find_folder_healthy w (parent_id f) (user_id f) n H), Hn.
  destruct (find_exists
              (by_parent_user_name (parent_id f) (user_id f) (name f))
              (rows w) f Hin) as [g Hg].
  { apply by_parent_user_name_true. unfold carries. auto. }
  rewrite Hg. apply find_some in Hg as [Hgin Hc].
  apply by_parent_user_name_true in Hc.
  exists g. eexists. split; [reflexivity|]. split; [exact Hgin|].
  split; [exact Hc|].
  intros Huniq. destruct Hc as [Hcn [Hcp Hcu]]. now apply Huniq.
Qed.

(** X15. The lookup by name ignores the case of the name it is given:
    with a database that answers, for a stored folder and any name whose
    lower-cased form is the folder's stored name,
    [get_folder_by_parent_id_and_user_id_and_name] with the folder's
    [parent_id] and [user_id] returns a stored folder with that stored
    name in that place, and the folder itself when sibling names are
    unique. *)
Theorem lookup_any_case (w : World) (f : Folder) (n : string) :
  healthy w = true ->
  In f (rows w) ->
  lower n = name f ->
  exists g w',
    get_folder_by_parent_id_and_user_id_and_name
      (parent_id f) (user_id f) n w
    = (Returned (Some g), w')
    /\ In g (rows w)
    /\ carries (name f) (parent_id f) (user_id f) g
    /\ (sibling_unique (rows w) -> g = f).
Proof. exact (lookup_stored w f n). Qed.

Lemma lookup_any_case_witness :
  exists g w',
    get_folder_by_parent_id_and_user_id_and_name
      (parent_id work_lc) (user_id work_lc) "WORK" two_cases_world
    = (Returned (Some g), w')
    /\ In g (rows two_cases_world)
    /\ carries (name work_lc) (parent_id work_lc) (user_id work_lc) g
    /\ (sibling_unique (rows two_cases_world) -> g = work_lc).
Proof.
  apply (lookup_any_case two_cases_world work_lc "WORK").
  - reflexivity.
  - simpl. auto.
  - reflexivity.
Defined.

(** X16. A stored folder whose name is its own lower-cased form is
    found under its own name: with a database that answers, the lookup
    with the folder's [parent_id], [user_id] and [name] returns a stored
    folder with these three values, and the folder itself when sibling
    names are unique. *)
Theorem lookup_own_lower_name (w : World) (f : Folder) :
  healthy w = true ->
  In f (rows w) ->
  lower (name f) = name f ->
  exists g w',
    get_folder_by_parent_id_and_user_id_and_name
      (parent_id f) (user_id f) (name f) w
    = (Returned (Some g), w')
    /\ In g (rows w)
    /\ carries (name f) (parent_id f) (user_id f) g
    /\ (sibling_unique (rows w) -> g = f).
Proof.
  intros H Hin Hlow. now apply lookup_stored.
Qed.

Lemma lookup_own_lower_name_witness :
  exists g w',
    get_folder_by_parent_id_and_user_id_and_name
      (parent_id work_lc) (user_id work_lc) (name work_lc) two_cases_world
    = (Returned (Some g), w')
    /\ In g (rows two_cases_world)
    /\ carries (name work_lc) (parent_id work_lc) (user_id work_lc) g
    /\ (sibling_unique (rows two_cases_world) -> g = work_lc).
Proof.
  apply (lookup_own_lower_name two_cases_world work_lc).
  - reflexivity.
  - simpl. auto.
  - reflexivity.
Defined.

(** ** Listing after an insert *)

(** X17. A folder that [insert_new_folder] has returned is listed.  With
    a database that then answers, [get_folders_by_user_id] for its user
    returns the new folder and the folders of the user stored before,
    and no other folder; [get_folders_by_parent_id_and_user_id] for its
    parent and user returns the new folder and the folders stored there
    before, and no other folder.  Nothing is said of the order in which
    they come. *)
Theorem insert_then_list (w w1 : World) (u n : string) (p : option string)
  (f : Folder) :
  insert_new_folder u n p w = (Returned (Some f), w1) ->
  healthy w1 = true ->
  (exists l w2,
      get_folders_by_user_id u w1 = (Returned l, w2)
      /\ forall x, In x l <-> x = f \/ (In x (rows w) /\ user_id x = u))
  /\ (exists l w2,
        get_folders_by_parent_id_and_user_id p u w1 = (Returned l, w2)
        /\ forall x,
             In x l
             <-> x = f
                 \/ (In x (rows w) /\ parent_id x = p /\ user_id x = u)).
Proof.
  intros Hins Hw1.
  destruct (insert_returned w w1 u n p f Hins) as [Ef [_ [Hrows _]]].
  assert (Hfu : user_id f = u) by now subst f.
  assert (Hfp : parent_id f = p) by now subst f.
  rewrite (list_by_user_healthy w1 u Hw1).
  rewrite (list_by_parent_healthy w1 p u Hw1).
  rewrite Hrows. split; do 2 eexists; (split; [reflexivity|]); intros x.
  - rewrite filter_In, by_user_true, in_app_iff. simpl.
    split.
    + intros [[Hx|[<-|[]]] Hu]; auto.
    + intros [->|[Hx Hu]]; auto.
  - rewrite filter_In, by_parent_user_true, in_app_iff. simpl.
    split.
    + intros [[Hx|[<-|[]]] Hu]; auto.
    + intros [->|[Hx Hu]]; auto.
Qed.

Lemma insert_then_list_witness :
  (exists l w2,
      get_folders_by_user_id "u1"
        (after (insert_new_folder "u1" "Docs" (Some "3f2b")) shared_world)
      = (Returned l, w2)
      /\ forall x,
           In x l
           <-> x = new_row shared_world "u1" "Docs" (Some "3f2b")
               \/ (In x (rows shared_world) /\ user_id x = "u1"))
  /\ (exists l w2,
        get_folders_by_parent_id_and_user_id (Some "3f2b") "u1"
          (after (insert_new_folder "u1" "Docs" (Some "3f2b")) shared_world)
        = (Returned l, w2)
        /\ forall x,
             In x l
             <-> x = new_row shared_world "u1" "Docs" (Some "3f2b")
                 \/ (In x (rows shared_world)
                     /\ parent_id x = Some "3f2b" /\ user_id x = "u1")).
Proof.
  apply (insert_then_list shared_world
           (after (insert_new_folder "u1" "Docs" (Some "3f2b")) shared_world)
           "u1" "Docs" (Some "3f2b")
           (new_row shared_world "u1" "Docs" (Some "3f2b")));
    reflexivity.
Defined.

(** ** Replacing the items *)

Lemma replace_items_healthy (w : World) (i u : string) (it : FolderItems)
  (f : Folder) :
  healthy w = true ->
  find (by_id_user i u) (rows w) = Some f ->
  update_folder_items_by_id_and_user_id i u it w
  = (Returned (Some (set_updated_at (clock w (clock_reads w))
                       (set_items (Some it) f))),
     with_rows
       (map (fun x => if has_id (primary_key f) x
                      then set_updated_at (clock w (clock_reads w))
                             (set_items (Some it) x)
                      else x) (rows w))
       (next_call
          (mkWorld (rows w) (clock w) (S (clock_reads w)) (uuid_src w)
                   (uuid_draws w)
                   (fault_plan (next_call (next_call w)))))).
Proof.
  intros H Hf. unfold update_folder_items_by_id_and_user_id. unfold_op.
  pose proof (healthy_next_call _ H) as H1.
  pose proof (healthy_next_call _ H1) as H2.
  rewrite storage_call_healthy by exact H. run.
  rewrite storage_call_healthy by exact H1. run.
  rewrite Hf. run.
  rewrite storage_call_healthy by exact H2. run.
  reflexivity.
Qed.

(** X18. [update_folder_items_by_id_and_user_id] replaces the items as a
    whole.  With a database that answers, for a folder reachable by
    [(id, user_id)] the call returns the folder with exactly the items
    supplied, whatever items it had, and with [updated_at] set to the
    reading of the clock; a [get_folder_by_id_and_user_id] after it
    returns that folder. *)
Theorem replace_items_then_get (w : World) (i u : string)
  (it : FolderItems) (f : Folder) :
  healthy w = true ->
  find (by_id_user i u) (rows w) = Some f ->
  exists f' w' w'',
    update_folder_items_by_id_and_user_id i u it w = (Returned (Some f'), w')
    /\ items f' = Some it
    /\ updated_at f' = clock w (clock_reads w)
    /\ get_folder_by_id_and_user_id i u w' = (Returned (Some f'), w'').
Proof.
  intros H Hf. rewrite (replace_items_healthy w i u it f H Hf).
  do 3 eexists. split; [reflexivity|]. split; [reflexivity|].
  split; [reflexivity|].
  rewrite get_folder_healthy.
  - cbn [rows with_rows].
    rewrite (find_map_update (by_id_user i u) (primary_key f)
               (fun x => set_updated_at (clock w (clock_reads w))
                           (set_items (Some it) x)) (rows w) f);
      [reflexivity | reflexivity | exact Hf | reflexivity].
  - exact (healthy_next_call _ (healthy_next_call _ (healthy_next_call _ H))).
Qed.

Lemma replace_items_then_get_witness :
  exists f' w' w'',
    update_folder_items_by_id_and_user_id "3f2b" "u1" two_chats shared_world
    = (Returned (Some f'), w')
    /\ items f' = Some two_chats
    /\ updated_at f' = clock shared_world (clock_reads shared_world)
    /\ get_folder_by_id_and_user_id "3f2b" "u1" w' = (Returned (Some f'), w'').
Proof.
  apply (replace_items_then_get shared_world "3f2b" "u1" two_chats work);
    reflexivity.
Defined.

(** ** What an insert leaves alone *)

(** X20. [insert_new_folder] only ever appends: whatever the database
    does and whatever the call returns, the table after it is the table
    before it, followed by at most one row, and that row has the
    [user_id], [name] and [parent_id] given, no items and no meta. *)
Theorem insert_only_appends (w : World) (u n : string) (p : option string) :
  exists tail,
    rows (after (insert_new_folder u n p) w) = rows w ++ tail
    /\ length tail <= 1
    /\ forall f, In f tail ->
         carries n p u f /\ items f = None /\ meta f = None.
Proof.
  destruct (rows_after_insert w u n p) as [E|[_ E]]; rewrite E.
  - exists []. rewrite app_nil_r. simpl.
    split; [reflexivity|]. split; [lia|]. intros f [].
  - exists [new_row w u n p]. simpl. split; [reflexivity|]. split; [lia|].
    intros f [<-|[]]. unfold carries. simpl. auto.
Qed.

(** ** Timestamps *)

Lemma timely_later (c : nat -> Z) (k k' : nat) (r : list Folder) :
  (forall m j, m <= j -> (c m <= c j)%Z) ->
  k <= k' -> timely_rows c k r -> timely_rows c k' r.
Proof.
  intros Hc Hk Hr f Hf. destruct (Hr f Hf) as [H1 H2].
  split; [assumption|]. pose proof (Hc k k' Hk). lia.
Qed.

Lemma timely_insert (c : nat -> Z) (k : nat) (r : list Folder) (f : Folder) :
  (forall m j, m <= j -> (c m <= c j)%Z) ->
  timely_rows c k r ->
  created_at f = c k -> updated_at f = c (S k) ->
  timely_rows c (S (S k)) (r ++ [f]).
Proof.
  intros Hc Hr E1 E2 x Hx. apply in_app_or in Hx as [Hx|[<-|[]]].
  - assert (Hk : k <= S (S k)) by lia.
    exact (timely_later c k (S (S k)) r Hc Hk Hr x Hx).
  - rewrite E1, E2.
    pose proof (Hc k (S k)). pose proof (Hc (S k) (S (S k))). lia.
Qed.

Lemma timely_update (c : nat -> Z) (k : nat) (r : list Folder)
  (pk : string) (g : Folder -> Folder) :
  (forall m j, m <= j -> (c m <= c j)%Z) ->
  timely_rows c k r ->
  (forall x, created_at (g x) = created_at x) ->
  (forall x, updated_at (g x) = c k) ->
  timely_rows c (S k) (map (fun x => if has_id pk x then g x else x) r).
Proof.
  intros Hc Hr Hg1 Hg2 x Hx. apply in_map_iff in Hx as [y [<- Hy]].
  destruct (Hr y Hy) as [H1 H2]. pose proof (Hc k (S k)).
  destruct (has_id pk y); [rewrite Hg1, Hg2|]; lia.
Qed.

Lemma timely_delete (c : nat -> Z) (k : nat) (r : list Folder)
  (q : Folder -> bool) :
  timely_rows c k r -> timely_rows c k (filter q r).
Proof.
  intros Hr x Hx. apply filter_In in Hx as [Hx _]. now apply Hr.
Qed.

Ltac keep_time Hc Ht :=
  unfold timely, after; unfold_op; any_fault;
  repeat match goal with
         | |- context [match find ?p ?r with _ => _ end] =>
             destruct (find p r); run; any_fault
         | |- context [if existsb ?p ?r then _ else _] =>
             destruct (existsb p r); run; any_fault
         end;
  try exact Ht;
  try solve [refine (timely_later _ _ _ _ Hc _ Ht); lia];
  try solve [refine (timely_insert _ _ _ _ Hc Ht _ _); reflexivity];
  try solve [refine (timely_update _ _ _ _ _ Hc Ht _ _); reflexivity];
  try solve [refine (timely_delete _ _ _ _ Ht)].

Lemma clock_after (w : World) :
  (forall u n p, clock (after (insert_new_folder u n p) w) = clock w)
  /\ (forall i u p,
        clock (after (update_folder_parent_id_by_id_and_user_id i u p) w)
        = clock w)
  /\ (forall i u n,
        clock (after (update_folder_name_by_id_and_user_id i u n) w)
        = clock w)
  /\ (forall i u it,
        clock (after (update_folder_items_by_id_and_user_id i u it) w)
        = clock w)
  /\ (forall i u,
        clock (after (delete_folder_by_id_and_user_id i u) w) = clock w).
Proof.
  repeat split; intros.
  - unfold insert_new_folder. table_after.
  - unfold update_folder_parent_id_by_id_and_user_id. table_after.
  - unfold update_folder_name_by_id_and_user_id. table_after.
  - unfold update_folder_items_by_id_and_user_id. table_after.
  - unfold delete_folder_by_id_and_user_id. table_after.
Qed.

Lemma timely_after (w : World) :
  steady_clock w ->
  timely w ->
  (forall u n p, timely (after (insert_new_folder u n p) w))
  /\ (forall i u p,
        timely (after (update_folder_parent_id_by_id_and_user_id i u p) w))
  /\ (forall i u n,
        timely (after (update_folder_name_by_id_and_user_id i u n) w))
  /\ (forall i u it,
        timely (after (update_folder_items_by_id_and_user_id i u it) w))
  /\ (forall i u, timely (after (delete_folder_by_id_and_user_id i u) w)).
Proof.
  intros Hc Ht. unfold steady_clock in Hc. unfold timely in Ht.
  split; [|split; [|split; [|split]]]; intros.
  - unfold insert_new_folder. keep_time Hc Ht.
  - unfold update_folder_parent_id_by_id_and_user_id. keep_time Hc Ht.
  - unfold update_folder_name_by_id_and_user_id. keep_time Hc Ht.
  - unfold update_folder_items_by_id_and_user_id. keep_time Hc Ht.
  - unfold delete_folder_by_id_and_user_id. keep_time Hc Ht.
Qed.

(** X21. With a clock that never goes back, no folder is ever stamped as
    updated before it was created.  In a table where every row has
    [created_at <= updated_at] and no [updated_at] later than the next
    reading of the clock, the same holds after [insert_new_folder], each
    of the three updates and [delete_folder_by_id_and_user_id], whatever
    the arguments and whatever the database does; and the clock is the
    same clock after the call. *)
Theorem timestamps_ordered (w : World) :
  steady_clock w ->
  timely w ->
  (forall u n p,
      timely (after (insert_new_folder u n p) w)
      /\ steady_clock (after (insert_new_folder u n p) w))
  /\ (forall i u p,
        timely (after (update_folder_parent_id_by_id_and_user_id i u p) w)
        /\ steady_clock
             (after (update_folder_parent_id_by_id_and_user_id i u p) w))
  /\ (forall i u n,
        timely (after (update_folder_name_by_id_and_user_id i u n) w)
        /\ steady_clock
             (after (update_folder_name_by_id_and_user_id i u n) w))
  /\ (forall i u it,
        timely (after (update_folder_items_by_id_and_user_id i u it) w)
        /\ steady_clock
             (after (update_folder_items_by_id_and_user_id i u it) w))
  /\ (forall i u,
        timely (after (delete_folder_by_id_and_user_id i u) w)
        /\ steady_clock (after (delete_folder_by_id_and_user_id i u) w)).
Proof.
  intros Hc Ht.
  destruct (timely_after w Hc Ht) as [T1 [T2 [T3 [T4 T5]]]].
  destruct (clock_after w) as [C1 [C2 [C3 [C4 C5]]]].
  unfold steady_clock in *.
  split; [|split; [|split; [|split]]]; intros; split; auto.
  - now rewrite C1.
  - now rewrite C2.
  - now rewrite C3.
  - now rewrite C4.
  - now rewrite C5.
Qed.

Lemma timestamps_ordered_witness :
  timely (after (update_folder_name_by_id_and_user_id "91c4" "u1" "Play")
                home_world)
  /\ steady_clock
       (after (update_folder_name_by_id_and_user_id "91c4" "u1" "Play")
              home_world).
Proof.
  apply (timestamps_ordered home_world).
  - intros m k _. simpl. lia.
  - intros f [<-|[<-|[]]]; simpl; lia.
Defined.
